(** * LangChain starter template: configuration, logging and lifecycle shell

    A shallow embedding of the TypeScript sources

    - [types/index.ts]            (the records below),
    - [config/ConfigManager.ts]   ([Module ConfigManager]),
    - [utils/Logger.ts]           ([Module Logger]),
    - [models/ModelManager.ts]    ([Module ModelManager]),
    - [core/LangChainCore.ts]     ([Module LangChainCore]),
    - [index.ts]                  ([Module LangChainStarter]),

    and of the sharing of the configuration among the applications of one
    process ([Module Process]), followed by the properties of the
    specification, proved on it.

    Conventions.  JavaScript strings are [string]; a "character" is one code
    unit.  The numbers that are computed with (sizes, counts, indices) are of
    type [number]; the doubles that are only passed on (temperature, score,
    random values) are carried as symbolic [float]s.  [async] methods run to
    completion in call order (the program has one thread of control and
    never interleaves two calls), so a method is a state transformer that
    returns or throws; the one loop of the program is run on fuel, and is
    unfinished when the fuel runs out before the loop ends. *)

From Stdlib Require Import ZArith String Ascii List Bool Lia.
From stdpp Require Import gmap strings.

Open Scope string_scope.
Open Scope list_scope.
Open Scope Z_scope.

(* ================================================================== *)
(** ** JavaScript values used by the program *)

(** Numbers.  [Int z] is the integer [z]; [Frac m e], with [m] odd, is the
    number [m / 2^e], finite and not an integer; the rest of a double is
    [Infinity] with its sign, and [NaN].  Sums of integers are kept exact
    (a double agrees up to 2^53, beyond every length and index of the
    program); every other sum is rounded as a double rounds it.  The two
    zeros are not told apart. *)
Inductive number : Type :=
| NaN
| Int (z : Z)
| Frac (m : Z) (e : positive)
| Infinity (negative : bool).

(** Doubles that are not computed with. *)
Inductive float : Type :=
| Literal (text : string)       (* a decimal literal of the source, e.g. 0.8 *)
| ParseFloat (text : string)    (* parseFloat(text) *)
| Random (n : nat).             (* the n-th value drawn from Math.random() *)

(** The number of times 2 divides a positive number. *)
Fixpoint trailing_zeros (p : positive) : Z :=
  match p with
  | xO p' => 1 + trailing_zeros p'
  | _ => 0
  end.

(** The number [m * 2^(-e)], in its one form. *)
Definition dyadic (m e : Z) : number :=
  match m with
  | Z0 => Int 0
  | Zpos p | Zneg p =>
      if e <=? 0 then Int (m * 2 ^ (- e))
      else
        let s := Z.min (trailing_zeros p) e in
        match e - s with
        | Zpos e' => Frac (m / 2 ^ s) e'
        | _ => Int (m / 2 ^ s)
        end
  end.

(** [m / 2^s] rounded to the nearest integer, to the even one of two that
    are equally near. *)
Definition round_half_even (m s : Z) : Z :=
  let q := m / 2 ^ s in
  let r := m mod 2 ^ s in
  let half := 2 ^ (s - 1) in
  if r <? half then q
  else if half <? r then q + 1
  else if Z.even q then q else q + 1.

(** The double nearest to [m * 2^(-e)]: 53 significant bits, none below
    2^(-1074), and infinity from 2^1024 on. *)
Definition round_double (m e : Z) : number :=
  match m with
  | Z0 => Int 0
  | _ =>
      let leading := Z.log2 (Z.abs m) - e in
      let kept := 52 - Z.max leading (-1022) in
      let m' := if e <=? kept then m * 2 ^ (kept - e)
                else round_half_even m (e - kept) in
      if 2 ^ (1024 + kept) <=? Z.abs m' then Infinity (m' <? 0)
      else dyadic m' kept
  end.

(** A finite number as [(m, e)], standing for [m / 2^e]. *)
Definition fraction (a : number) : option (Z * Z) :=
  match a with
  | Int z => Some (z, 0)
  | Frac m e => Some (m, Zpos e)
  | NaN | Infinity _ => None
  end.

(** [a + b] on numbers. *)
Definition num_add (a b : number) : number :=
  match a, b with
  | NaN, _ | _, NaN => NaN
  | Infinity s, Infinity s' => if Bool.eqb s s' then Infinity s else NaN
  | Infinity s, _ | _, Infinity s => Infinity s
  | Int x, Int y => Int (x + y)
  | _, _ =>
      match fraction a, fraction b with
      | Some (m1, e1), Some (m2, e2) =>
          let e := Z.max e1 e2 in
          round_double (m1 * 2 ^ (e - e1) + m2 * 2 ^ (e - e2)) e
      | _, _ => NaN
      end
  end.

(** [a < b] on numbers: false as soon as one side is NaN. *)
Definition num_lt (a b : number) : bool :=
  match a, b with
  | NaN, _ | _, NaN => false
  | Infinity s, Infinity s' => s && negb s'
  | Infinity s, _ => s
  | _, Infinity s => negb s
  | Int x, Int y => x <? y
  | _, _ =>
      match fraction a, fraction b with
      | Some (m1, e1), Some (m2, e2) =>
          let e := Z.max e1 e2 in
          m1 * 2 ^ (e - e1) <? m2 * 2 ^ (e - e2)
      | _, _ => false
      end
  end.

(** An integer or an infinity: a relative index. *)
Inductive relative : Type :=
| MinusInfinity
| Finite (z : Z)
| PlusInfinity.

(** ToIntegerOrInfinity: NaN becomes 0, a fraction loses its fractional
    part. *)
Definition to_integer (a : number) : relative :=
  match a with
  | NaN => Finite 0
  | Int z => Finite z
  | Frac m e => Finite (Z.quot m (2 ^ Zpos e))
  | Infinity true => MinusInfinity
  | Infinity false => PlusInfinity
  end.

(** The clamping of a relative index that [String.prototype.slice] and
    [Array.prototype.slice] share: a negative index counts from the end. *)
Definition clamp_index (len : nat) (rel : relative) : nat :=
  match rel with
  | MinusInfinity => 0%nat
  | PlusInfinity => len
  | Finite z =>
      if z <? 0 then Z.to_nat (Z.max (Z.of_nat len + z) 0)
      else Z.to_nat (Z.min z (Z.of_nat len))
  end.

(** [s.slice(start, end)] on a string. *)
Definition slice (s : string) (start end_ : number) : string :=
  let len := String.length s in
  let from := clamp_index len (to_integer start) in
  let to := clamp_index len (to_integer end_) in
  substring from (to - from)%nat s.

(** [l.slice(start, end)] on an array. *)
Definition array_slice {A : Type} (l : list A) (start end_ : number) : list A :=
  let len := length l in
  let from := clamp_index len (to_integer start) in
  let to := clamp_index len (to_integer end_) in
  take (to - from)%nat (drop from l).

(** The most elements an array holds: 2^32 - 1. *)
Definition max_array_length : Z := 4294967295.

(** [l.push(x)]: the array with [x] at its end, or nothing when the array
    is full and [push] throws RangeError("Invalid array length"). *)
Definition push {A : Type} (l : list A) (x : A) : option (list A) :=
  if Z.of_nat (length l) <? max_array_length then Some (l ++ [x]) else None.

(** [l.join(sep)] on an array of strings. *)
Definition join (sep : string) (l : list string) : string := String.concat sep l.

(** [l.indexOf(x)]: the first position of [x], or -1. *)
Fixpoint indexOf (l : list string) (x : string) : Z :=
  match l with
  | [] => -1
  | y :: l' =>
      if String.eqb y x then 0
      else let r := indexOf l' x in if r <? 0 then -1 else r + 1
  end.

(** [s.toUpperCase()] on the ASCII letters. *)
Definition upper_char (c : ascii) : ascii :=
  let n := nat_of_ascii c in
  if ((97 <=? n) && (n <=? 122))%nat then ascii_of_nat (n - 32) else c.

Fixpoint toUpperCase (s : string) : string :=
  match s with
  | EmptyString => EmptyString
  | String c s' => String (upper_char c) (toUpperCase s')
  end.

(** *** parseInt *)

Definition is_white_space (c : ascii) : bool :=
  let n := nat_of_ascii c in
  ((9 <=? n) && (n <=? 13) || (n =? 32))%nat.

Fixpoint trim_start (s : string) : string :=
  match s with
  | String c s' => if is_white_space c then trim_start s' else s
  | EmptyString => EmptyString
  end.

(** The value of a digit in the given radix, if it is one. *)
Definition digit_value (radix : Z) (c : ascii) : option Z :=
  let n := Z.of_nat (nat_of_ascii c) in
  let v :=
    if (48 <=? n) && (n <=? 57) then Some (n - 48)
    else if (97 <=? n) && (n <=? 122) then Some (n - 87)
    else if (65 <=? n) && (n <=? 90) then Some (n - 55)
    else None in
  match v with
  | Some d => if d <? radix then Some d else None
  | None => None
  end.

(** Reads the longest prefix of digits; [acc] is [None] until a digit is
    seen. *)
Fixpoint parse_digits (radix : Z) (s : string) (acc : option Z) : option Z :=
  match s with
  | EmptyString => acc
  | String c s' =>
      match digit_value radix c with
      | Some d =>
          parse_digits radix s'
            (Some (match acc with Some a => a * radix + d | None => d end))
      | None => acc
      end
  end.

(** [parseInt(s)] without a radix argument: leading white space (the ASCII
    part of it), a sign, a [0x] prefix selecting radix 16, then the longest
    run of digits; NaN when there is none.  The integer is kept exact,
    where a double rounds beyond 2^53. *)
Definition parseInt (s : string) : number :=
  let s1 := trim_start s in
  let '(sign, s2) :=
    match s1 with
    | String "-" r => (-1, r)
    | String "+" r => (1, r)
    | _ => (1, s1)
    end in
  let '(radix, s3) :=
    match s2 with
    | String "0" (String "x" r) => (16, r)
    | String "0" (String "X" r) => (16, r)
    | _ => (10, s2)
    end in
  match parse_digits radix s3 None with
  | Some v => Int (sign * v)
  | None => NaN
  end.

(** A value passed where the source says [any]; the objects are the flat
    records of counters that the program logs. *)
Inductive jsval : Type :=
| VUndefined
| VNull
| VBool (b : bool)
| VNum (n : number)
| VStr (s : string)
| VError (message : string)
| VObject (fields : list (string * number)).

(** ToBoolean. *)
Definition truthy (v : jsval) : bool :=
  match v with
  | VUndefined | VNull => false
  | VBool b => b
  | VNum NaN => false
  | VNum (Int z) => negb (z =? 0)
  | VNum (Frac _ _) | VNum (Infinity _) => true
  | VStr s => negb (String.eqb s "")
  | VError _ | VObject _ => true
  end.

(** [o || d] on a possibly undefined string: the default replaces a missing
    and an empty one alike. *)
Definition or_default (o : option string) (d : string) : string :=
  match o with
  | Some s => if String.eqb s "" then d else s
  | None => d
  end.

(* ================================================================== *)
(** ** types/index.ts *)

Module LogLevel.
Inductive t : Type := debug | info | warn | error.

(** The string a level is at run time. *)
Definition name (l : t) : string :=
  match l with
  | debug => "debug"
  | info => "info"
  | warn => "warn"
  | error => "error"
  end.
End LogLevel.

Module OpenAI.
Record t : Type := Build {
  apiKey : option string;     (* [None]: the property is missing *)
  model : string;
  temperature : float;
  maxTokens : number
}.
End OpenAI.

Module Embeddings.
Record t : Type := Build {
  model : string;
  chunkSize : number;
  chunkOverlap : number
}.
End Embeddings.

Module Logging.
Record t : Type := Build {
  level : string;             (* loaded from the environment unchecked *)
  enableConsole : bool
}.
End Logging.

Record LangChainConfig : Type := BuildConfig {
  openai : OpenAI.t;
  embeddings : Embeddings.t;
  logging : Logging.t
}.

Record SearchResult : Type := BuildSearchResult {
  content : string;
  score : float
}.

Module VectorStore.
Record t : Type := Build {
  documents : list string;
  (** [search(query, k?)]; [None] is an omitted [k]. *)
  search : string -> option number -> list SearchResult
}.
End VectorStore.

Record RAGResponse : Type := BuildRAGResponse {
  result : string;
  sourceDocuments : list SearchResult
}.

Module RAGChain.
Record t : Type := Build {
  vectorStore : VectorStore.t;
  (** [call({query})]. *)
  call : string -> RAGResponse
}.
End RAGChain.

Module PromptChain.
Record t : Type := Build {
  template : string;
  (** [call(variables)]; the argument is the text [JSON.stringify] gives
      for the variables record. *)
  call : string -> string
}.
End PromptChain.

(* ================================================================== *)
(** ** Outcomes and sequencing *)

(** What a call leaves behind: a value, a thrown [Error] with its message,
    or nothing when a loop was cut off by its step budget. *)
Inductive outcome (S A : Type) : Type :=
| Return (a : A) (s : S)
| Throw (message : string) (s : S)
| Unfinished.

Arguments Return {S A} a s.
Arguments Throw {S A} message s.
Arguments Unfinished {S A}.

Definition M (S A : Type) : Type := S -> outcome S A.

Definition ret {S A : Type} (a : A) : M S A := fun s => Return a s.

Definition bind {S A B : Type} (m : M S A) (k : A -> M S B) : M S B :=
  fun s =>
    match m s with
    | Return a s' => k a s'
    | Throw e s' => Throw e s'
    | Unfinished => Unfinished
    end.

(** [throw new Error(message)]. *)
Definition throw {S A : Type} (message : string) : M S A :=
  fun s => Throw message s.

(** [try { body } catch (error) { handler }]. *)
Definition try_catch {S A : Type} (body : M S A) (handler : string -> M S A) : M S A :=
  fun s =>
    match body s with
    | Throw e s' => handler e s'
    | r => r
    end.

Definition get {S : Type} : M S S := fun s => Return s s.
Definition modify {S : Type} (f : S -> S) : M S unit := fun s => Return tt (f s).

Declare Scope js_scope.
Delimit Scope js_scope with js.
Notation "'let!' x ':=' m 'in' k" := (bind m (fun x => k))
  (at level 10, x name, m at level 100, k at level 200,
   format "'[v' 'let!'  x  ':='  m  'in' '/' k ']'") : js_scope.
Notation "m ';;;' k" := (bind m (fun _ => k))
  (at level 100, k at level 200, right associativity,
   format "'[v' m  ';;;' '/' k ']'") : js_scope.
Open Scope js_scope.

(* ================================================================== *)
(** ** config/ConfigManager.ts *)

Module ConfigManager.

(** An instance: its private [config] slot. *)
Record t : Type := Build { config : LangChainConfig }.

(** [e] is [process.env]. *)
Definition loadConfig (e : gmap string string) : LangChainConfig :=
  {| openai :=
       {| OpenAI.apiKey := Some (or_default (e !! "OPENAI_API_KEY") "");
          OpenAI.model := or_default (e !! "OPENAI_MODEL") "gpt-3.5-turbo";
          OpenAI.temperature :=
            ParseFloat (or_default (e !! "OPENAI_TEMPERATURE") "0.7");
          OpenAI.maxTokens :=
            parseInt (or_default (e !! "OPENAI_MAX_TOKENS") "1000") |};
     embeddings :=
       {| Embeddings.model :=
            or_default (e !! "EMBEDDING_MODEL") "text-embedding-ada-002";
          Embeddings.chunkSize :=
            parseInt (or_default (e !! "CHUNK_SIZE") "1000");
          Embeddings.chunkOverlap :=
            parseInt (or_default (e !! "CHUNK_OVERLAP") "200") |};
     logging :=
       {| Logging.level := or_default (e !! "LOG_LEVEL") "info";
          Logging.enableConsole :=
            match e !! "ENABLE_CONSOLE_LOGGING" with
            | Some v => negb (String.eqb v "false")
            | None => true
            end |} |}.

(** [!apiKey]: the key is missing or empty. *)
Definition key_absent (c : LangChainConfig) : bool :=
  match OpenAI.apiKey (openai c) with
  | Some k => String.eqb k ""
  | None => true
  end.

Definition validateConfig : M t unit :=
  let! this := get in
  if key_absent (config this)
  then throw "OPENAI_API_KEY environment variable is required"
  else ret tt.

(** The private constructor: the instance under construction and how
    validation left it. *)
Definition new (e : gmap string string) : outcome t unit :=
  validateConfig {| config := loadConfig e |}.

(** [getInstance()], run on the static [instance] slot; the slot stays empty
    when the constructor throws. *)
Definition getInstance (e : gmap string string) : M (option t) t :=
  fun instance =>
    match instance with
    | Some i => Return i instance
    | None =>
        match new e with
        | Return _ i => Return i (Some i)
        | Throw msg _ => Throw msg None
        | Unfinished => Unfinished
        end
    end.

Definition getConfig : M t LangChainConfig :=
  let! this := get in ret (config this).

(** [Partial<LangChainConfig>]: each of the three keys absent, or present
    with a section.  The type also admits a key present with the value
    [undefined]; such a partial is not among the values of this record. *)
Record partial : Type := Partial {
  p_openai : option OpenAI.t;
  p_embeddings : option Embeddings.t;
  p_logging : option Logging.t
}.

(** [{ ...c, ...p }]: a section of [p] replaces the section of [c]
    whole. *)
Definition spread (c : LangChainConfig) (p : partial) : LangChainConfig :=
  {| openai := default (openai c) (p_openai p);
     embeddings := default (embeddings c) (p_embeddings p);
     logging := default (logging c) (p_logging p) |}.

Definition updateConfig (newConfig : partial) : M t unit :=
  modify (fun this => {| config := spread (config this) newConfig |}) ;;;
  validateConfig.

End ConfigManager.

(* ================================================================== *)
(** ** The running program *)

(** What the program does to the outside: a [console.log] call with its
    arguments, or a wait on [setTimeout]. *)
Inductive event : Type :=
| ConsoleLog (line : string) (data : option jsval)
| Timer (ms : nat).

(** The objects that [Logger], [ModelManager] and [LangChainCore] work on.
    [config] is the one configuration object that the logger and the model
    manager both hold a reference to, as [LangChainStarter]'s constructor
    wires them; [managerInitialized] is [ModelManager]'s private
    [initialized] flag. *)
Record World : Type := BuildWorld {
  config : LangChainConfig;
  now : string;                 (* what new Date().toISOString() returns *)
  events : list event;          (* oldest first *)
  draws : nat;                  (* values taken from Math.random() so far *)
  managerInitialized : bool
}.

Definition set_config (c : LangChainConfig) (w : World) : World :=
  {| config := c; now := now w; events := events w; draws := draws w;
     managerInitialized := managerInitialized w |}.

Definition set_managerInitialized (b : bool) (w : World) : World :=
  {| config := config w; now := now w; events := events w; draws := draws w;
     managerInitialized := b |}.

Definition emit (e : event) (w : World) : World :=
  {| config := config w; now := now w; events := events w ++ [e];
     draws := draws w; managerInitialized := managerInitialized w |}.

Definition set_draws (n : nat) (w : World) : World :=
  {| config := config w; now := now w; events := events w; draws := n;
     managerInitialized := managerInitialized w |}.

(** [console.log(line)] and [console.log(line, data)]. *)
Definition console_log (line : string) (data : option jsval) : M World unit :=
  modify (emit (ConsoleLog line data)).

(** [await new Promise(resolve => setTimeout(resolve, ms))]. *)
Definition sleep (ms : nat) : M World unit :=
  modify (emit (Timer ms)).

(* ================================================================== *)
(** ** utils/Logger.ts *)

Module Logger.

Definition log (level : string) (message : string) (data : jsval) : M World unit :=
  let! this := get in
  if negb (Logging.enableConsole (logging (config this))) then ret tt
  else
    let timestamp := now this in
    let logMessage :=
      "[" +:+ timestamp +:+ "] [" +:+ toUpperCase level +:+ "] " +:+ message in
    if truthy data then console_log logMessage (Some data)
    else console_log logMessage None.

Definition levels : list string := ["debug"; "info"; "warn"; "error"].

Definition shouldLog (level : LogLevel.t) : M World bool :=
  let! this := get in
  let currentLevelIndex := indexOf levels (Logging.level (logging (config this))) in
  let messageLevelIndex := indexOf levels (LogLevel.name level) in
  ret (messageLevelIndex >=? currentLevelIndex).

Definition debug (message : string) (data : jsval) : M World unit :=
  let! ok := shouldLog LogLevel.debug in
  if ok then log "debug" message data else ret tt.

Definition info (message : string) (data : jsval) : M World unit :=
  let! ok := shouldLog LogLevel.info in
  if ok then log "info" message data else ret tt.

Definition warn (message : string) (data : jsval) : M World unit :=
  let! ok := shouldLog LogLevel.warn in
  if ok then log "warn" message data else ret tt.

Definition error (message : string) (data : jsval) : M World unit :=
  let! ok := shouldLog LogLevel.error in
  if ok then log "error" message data else ret tt.

(** Both setters write into the shared configuration object. *)
Definition setLogLevel (level : LogLevel.t) : M World unit :=
  modify (fun this =>
    set_config
      {| openai := openai (config this);
         embeddings := embeddings (config this);
         logging :=
           {| Logging.level := LogLevel.name level;
              Logging.enableConsole :=
                Logging.enableConsole (logging (config this)) |} |}
      this).

Definition enableConsoleLogging (enable : bool) : M World unit :=
  modify (fun this =>
    set_config
      {| openai := openai (config this);
         embeddings := embeddings (config this);
         logging :=
           {| Logging.level := Logging.level (logging (config this));
              Logging.enableConsole := enable |} |}
      this).

(** The method of the logger for a severity. *)
Definition at_level (level : LogLevel.t) : string -> jsval -> M World unit :=
  match level with
  | LogLevel.debug => debug
  | LogLevel.info => info
  | LogLevel.warn => warn
  | LogLevel.error => error
  end.

End Logger.

(* ================================================================== *)
(** ** models/ModelManager.ts *)

Module ModelManager.

Definition simulateInitialization : M World unit :=
  sleep 100 ;;;
  Logger.debug "Model initialization simulated" VUndefined.

Definition initialize : M World unit :=
  let! this := get in
  if managerInitialized this then
    Logger.warn "ModelManager already initialized" VUndefined
  else
    try_catch
      (Logger.info "Initializing ModelManager..." VUndefined ;;;
       simulateInitialization ;;;
       modify (set_managerInitialized true) ;;;
       Logger.info "ModelManager initialized successfully" VUndefined)
      (fun error =>
         Logger.error "Failed to initialize ModelManager" (VError error) ;;;
         throw error).

Definition testConnection : M World bool :=
  try_catch
    (Logger.info "Testing model connection..." VUndefined ;;;
     sleep 50 ;;;
     Logger.info "Model connection test successful" VUndefined ;;;
     ret true)
    (fun error =>
       Logger.error "Model connection test failed" (VError error) ;;;
       ret false).

Definition getConfig : M World LangChainConfig :=
  let! this := get in ret (config this).

Definition isInitialized : M World bool :=
  let! this := get in ret (managerInitialized this).

Definition reinitialize : M World unit :=
  modify (set_managerInitialized false) ;;;
  initialize.

Definition getChatModel : M World jsval :=
  let! this := get in
  if negb (managerInitialized this) then
    throw "ModelManager must be initialized before use"
  else
    Logger.debug "Getting chat model instance" VUndefined ;;;
    ret VNull.

Definition getEmbeddings : M World jsval :=
  let! this := get in
  if negb (managerInitialized this) then
    throw "ModelManager must be initialized before use"
  else
    Logger.debug "Getting embeddings instance" VUndefined ;;;
    ret VNull.

Definition getTextSplitter : M World jsval :=
  let! this := get in
  if negb (managerInitialized this) then
    throw "ModelManager must be initialized before use"
  else
    Logger.debug "Getting text splitter instance" VUndefined ;;;
    ret VNull.

End ModelManager.

(* ================================================================== *)
(** ** core/LangChainCore.ts *)

Module LangChainCore.

Definition simpleChat (message : string) (systemPrompt : option string) : M World string :=
  try_catch
    (Logger.info "Executing simple chat..." VUndefined ;;;
     let! ready := ModelManager.isInitialized in
     if negb ready then throw "ModelManager must be initialized before use"
     else
       let response := "Echo: " +:+ message in
       Logger.info "Simple chat completed successfully" VUndefined ;;;
       ret response)
    (fun error =>
       Logger.error "Error in simple chat" (VError error) ;;;
       throw error).

Definition createPromptChain (template : string) : M World PromptChain.t :=
  try_catch
    (Logger.info "Creating prompt chain..." VUndefined ;;;
     let! ready := ModelManager.isInitialized in
     if negb ready then throw "ModelManager must be initialized before use"
     else
       let chain :=
         {| PromptChain.template := template;
            PromptChain.call := fun variables => "Processed: " +:+ variables |} in
       Logger.info "Prompt chain created successfully" VUndefined ;;;
       ret chain)
    (fun error =>
       Logger.error "Error creating prompt chain" (VError error) ;;;
       throw error).

(** The [search] closure of a store over [documents]; an omitted [k] is 4. *)
Definition search (documents : list string) (query : string) (k : option number)
  : list SearchResult :=
  let k := default (Int 4) k in
  map (fun doc => {| content := doc; score := Literal "0.8" |})
      (array_slice documents (Int 0) k).

Definition createVectorStore (documents : list string) : M World VectorStore.t :=
  try_catch
    (Logger.info "Creating vector store..." VUndefined ;;;
     let! ready := ModelManager.isInitialized in
     if negb ready then throw "ModelManager must be initialized before use"
     else
       let vectorStore :=
         {| VectorStore.documents := documents;
            VectorStore.search := search documents |} in
       Logger.info "Vector store created successfully"
         (VObject [("docCount", Int (Z.of_nat (length documents)))]) ;;;
       ret vectorStore)
    (fun error =>
       Logger.error "Error creating vector store" (VError error) ;;;
       throw error).

Definition createRAGChain (documents : list string) : M World RAGChain.t :=
  try_catch
    (Logger.info "Creating RAG chain..." VUndefined ;;;
     let! vectorStore := createVectorStore documents in
     let ragChain :=
       {| RAGChain.vectorStore := vectorStore;
          RAGChain.call := fun query =>
            let relevantDocs := VectorStore.search vectorStore query None in
            {| result :=
                 "RAG response based on: " +:+ join ", " (map content relevantDocs);
               sourceDocuments := relevantDocs |} |} in
     Logger.info "RAG chain created successfully" VUndefined ;;;
     ret ragChain)
    (fun error =>
       Logger.error "Error creating RAG chain" (VError error) ;;;
       throw error).

Definition similaritySearch (query : string) (documents : list string) (k : option number)
  : M World (list SearchResult) :=
  let k := default (Int 4) k in
  try_catch
    (Logger.info "Performing similarity search..." VUndefined ;;;
     let! vectorStore := createVectorStore documents in
     let results := VectorStore.search vectorStore query (Some k) in
     Logger.info "Similarity search completed"
       (VObject [("resultCount", Int (Z.of_nat (length results)))]) ;;;
     ret results)
    (fun error =>
       Logger.error "Error in similarity search" (VError error) ;;;
       throw error).

(** [Math.random()]. *)
Definition random : M World float :=
  let! w := get in
  modify (set_draws (S (draws w))) ;;;
  ret (Random (draws w)).

(** [array.map(() => Math.random())] over an array of [n] cells. *)
Fixpoint random_vector (n : nat) : M World (list float) :=
  match n with
  | O => ret []
  | S n' =>
      let! x := random in
      let! xs := random_vector n' in
      ret (x :: xs)
  end.

Definition getEmbeddings (text : string) : M World (list float) :=
  try_catch
    (Logger.info "Getting embeddings for text..." VUndefined ;;;
     let! ready := ModelManager.isInitialized in
     if negb ready then throw "ModelManager must be initialized before use"
     else
       let! embeddings := random_vector 1536 in
       Logger.info "Embeddings generated successfully" VUndefined ;;;
       ret embeddings)
    (fun error =>
       Logger.error "Error getting embeddings" (VError error) ;;;
       throw error).

(** [for (let i = ...; i < text.length; i += chunkSize) chunks.push(...)],
    entered with the current [i] and [chunks]; [fuel] bounds the number of
    tests of the loop condition, and [None] says the bound was reached.
    The loop ends with the chunks ([inr]) when the condition fails, and
    with the message of the RangeError ([inl]) when [push] finds the array
    full. *)
Fixpoint chunk_loop (fuel : nat) (text : string) (chunkSize i : number) (chunks : list string)
  : option (string + list string) :=
  match fuel with
  | O => None
  | S fuel' =>
      if num_lt i (Int (Z.of_nat (String.length text))) then
        match push chunks (slice text i (num_add i chunkSize)) with
        | Some chunks' => chunk_loop fuel' text chunkSize (num_add i chunkSize) chunks'
        | None => Some (inl "Invalid array length")
        end
      else Some (inr chunks)
  end.

Definition run_chunk_loop (fuel : nat) (text : string) (chunkSize : number)
  : M World (list string) :=
  fun w =>
    match chunk_loop fuel text chunkSize (Int 0) [] with
    | Some (inr chunks) => Return chunks w
    | Some (inl message) => Throw message w
    | None => Unfinished
    end.

Definition splitText (fuel : nat) (text : string) : M World (list string) :=
  try_catch
    (Logger.info "Splitting text into chunks..." VUndefined ;;;
     let! ready := ModelManager.isInitialized in
     if negb ready then throw "ModelManager must be initialized before use"
     else
       let! config := ModelManager.getConfig in
       let chunkSize := Embeddings.chunkSize (embeddings config) in
       let! chunks := run_chunk_loop fuel text chunkSize in
       Logger.info "Text split successfully"
         (VObject [("chunkCount", Int (Z.of_nat (length chunks)))]) ;;;
       ret chunks)
    (fun error =>
       Logger.error "Error splitting text" (VError error) ;;;
       throw error).

End LangChainCore.

(* ================================================================== *)
(** ** index.ts *)

Module LangChainStarter.

(** The application object: the components it owns, and its own flag. *)
Record t : Type := Build {
  world : World;
  initialized : bool
}.

(** A call on one of the owned components. *)
Definition on_world {A : Type} (m : M World A) : M t A :=
  fun this =>
    match m (world this) with
    | Return a w => Return a {| world := w; initialized := initialized this |}
    | Throw e w => Throw e {| world := w; initialized := initialized this |}
    | Unfinished => Unfinished
    end.

Definition set_initialized (b : bool) (this : t) : t :=
  {| world := world this; initialized := b |}.

(** [new LangChainStarter()], run on the static slot of [ConfigManager];
    [e] is [process.env] and [clock] the time of day.  This is the
    application on its own, with the configuration as it reads it;
    [Process.new] below builds it among the other holders of the
    configuration object. *)
Definition new (e : gmap string string) (clock : string) : M (option ConfigManager.t) t :=
  let! manager := ConfigManager.getInstance e in
  let config := ConfigManager.config manager in
  ret {| world :=
           {| config := config; now := clock; events := []; draws := 0%nat;
              managerInitialized := false |};
         initialized := false |}.

(** [initialize()]; [testConnection] is the method found on the model
    manager when it is called. *)
Definition initialize_with (testConnection : M World bool) : M t unit :=
  let! this := get in
  if initialized this then
    on_world (Logger.warn "LangChain starter already initialized" VUndefined)
  else
    try_catch
      (on_world (Logger.info "Initializing LangChain starter..." VUndefined) ;;;
       on_world ModelManager.initialize ;;;
       let! connectionOk := on_world testConnection in
       (if negb connectionOk
        then throw "Failed to establish connection with models"
        else ret tt) ;;;
       modify (set_initialized true) ;;;
       on_world (Logger.info "LangChain starter initialized successfully" VUndefined))
      (fun error =>
         on_world (Logger.error "Failed to initialize LangChain starter" (VError error)) ;;;
         throw error).

Definition initialize : M t unit := initialize_with ModelManager.testConnection.

(** [getCore()]: the core has no state of its own, so the value returned
    carries nothing. *)
Definition getCore : M t unit :=
  let! this := get in
  if negb (initialized this) then
    throw "LangChain starter must be initialized before use"
  else ret tt.

Definition getConfig : M t LangChainConfig :=
  let! this := get in ret (config (world this)).

Definition isInitialized : M t bool :=
  let! this := get in ret (initialized this).

Definition reinitialize : M t unit :=
  modify (set_initialized false) ;;;
  initialize.

End LangChainStarter.

(* ================================================================== *)
(** ** Several applications in one process *)

(** [World] and [LangChainStarter.t] hold the objects of one application,
    with the configuration as that application reads it.  A process can
    build several applications, and they take their configuration from the
    one [ConfigManager] instance: the constructor of [LangChainStarter]
    stores the reference that [getConfig()] returns, so what one holder
    writes into the object the others read.

    Of the objects of a configuration only the [logging] section is ever
    written to, by the two setters of [Logger].  The configuration object
    itself and its [openai] and [embeddings] sections are never changed once
    made ([updateConfig] puts a new object into the slot of the instance),
    so they are held by value here, and the [logging] section by its
    address in the store of the process. *)
Module Process.

(** A configuration object. *)
Record configuration : Type := Configuration {
  openaiSection : OpenAI.t;
  embeddingsSection : Embeddings.t;
  loggingAddress : nat
}.

(** A [LangChainStarter] object: its [config] field, the [initialized]
    flag of its model manager, and its own. *)
Record application : Type := Application {
  config_of : configuration;
  managerReady : bool;
  ready : bool
}.

(** The process: the [logging] objects by address and the first address
    not yet given out; the static [instance] slot of [ConfigManager], as
    the object in the [config] slot of the instance when there is one; the
    clock, the console and the random source. *)
Record t : Type := Build {
  heap : nat -> Logging.t;
  next : nat;
  instance : option configuration;
  clock : string;
  console : list event;
  random : nat
}.

(** A new [logging] object. *)
Definition allocate (l : Logging.t) : M t nat :=
  fun p =>
    Return (next p)
      {| heap := fun a => if Nat.eqb a (next p) then l else heap p a;
         next := S (next p);
         instance := instance p;
         clock := clock p; console := console p; random := random p |}.

Definition set_instance (c : configuration) : M t unit :=
  fun p =>
    Return tt
      {| heap := heap p; next := next p; instance := Some c;
         clock := clock p; console := console p; random := random p |}.

(** What a holder of the configuration object reads in it. *)
Definition read (c : configuration) (p : t) : LangChainConfig :=
  {| openai := openaiSection c;
     embeddings := embeddingsSection c;
     logging := heap p (loggingAddress c) |}.

(** [ConfigManager.getInstance().getConfig()]: the object in the slot of
    the instance, which is built from the environment [e] when there is
    none; the constructor assigns [instance] only after the validation. *)
Definition getConfig (e : gmap string string) : M t configuration :=
  let! p := get in
  match instance p with
  | Some c => ret c
  | None =>
      let loaded := ConfigManager.loadConfig e in
      let! a := allocate (logging loaded) in
      let c := {| openaiSection := openai loaded;
                  embeddingsSection := embeddings loaded;
                  loggingAddress := a |} in
      if ConfigManager.key_absent loaded
      then throw "OPENAI_API_KEY environment variable is required"
      else set_instance c ;;; ret c
  end.

(** [ConfigManager.getInstance().updateConfig(newConfig)].  The spread
    makes a new configuration object: it takes from [newConfig] the
    sections found there and from the old object the others, the [logging]
    section of the old object by reference.  A [logging] section of
    [newConfig] is an object that the caller made for the call. *)
Definition updateConfig (e : gmap string string) (newConfig : ConfigManager.partial)
  : M t unit :=
  let! c := getConfig e in
  let! a := match ConfigManager.p_logging newConfig with
            | Some l => allocate l
            | None => ret (loggingAddress c)
            end in
  let c' := {| openaiSection := default (openaiSection c) (ConfigManager.p_openai newConfig);
               embeddingsSection :=
                 default (embeddingsSection c) (ConfigManager.p_embeddings newConfig);
               loggingAddress := a |} in
  set_instance c' ;;;
  let! p := get in
  if ConfigManager.key_absent (read c' p)
  then throw "OPENAI_API_KEY environment variable is required"
  else ret tt.

(** [new LangChainStarter()]. *)
Definition new (e : gmap string string) : M t application :=
  let! c := getConfig e in
  ret {| config_of := c; managerReady := false; ready := false |}.

(** The objects of an application, as its methods find them. *)
Definition view (p : t) (app : application) : LangChainStarter.t :=
  {| LangChainStarter.world :=
       {| config := read (config_of app) p;
          now := clock p;
          events := console p;
          draws := random p;
          managerInitialized := managerReady app |};
     LangChainStarter.initialized := ready app |}.

(** The process and the application as a method leaves them: what it wrote
    into the configuration lands in the [logging] object of the
    application's configuration, for every holder of it. *)
Definition store (s : LangChainStarter.t) (p : t) (app : application) : t * application :=
  let w := LangChainStarter.world s in
  ({| heap := fun a => if Nat.eqb a (loggingAddress (config_of app))
                       then logging (config w) else heap p a;
      next := next p;
      instance := instance p;
      clock := now w; console := events w; random := draws w |},
   {| config_of := config_of app;
      managerReady := managerInitialized w;
      ready := LangChainStarter.initialized s |}).


End Process.

(* ================================================================== *)
(** ** Vocabulary of the properties *)

(** The severity order of the specification: debug < info < warn < error. *)
Definition rank (l : LogLevel.t) : nat :=
  match l with
  | LogLevel.debug => 0
  | LogLevel.info => 1
  | LogLevel.warn => 2
  | LogLevel.error => 3
  end%nat.

(** The filter a logger call goes through, read off the configuration. *)
Definition passes (c : LangChainConfig) (l : LogLevel.t) : bool :=
  (indexOf Logger.levels (LogLevel.name l)
     >=? indexOf Logger.levels (Logging.level (logging c)))
  && Logging.enableConsole (logging c).

(** The [console.log] call that a logger call makes when it passes. *)
Definition log_event (w : World) (l : LogLevel.t) (message : string) (data : jsval) : event :=
  ConsoleLog
    ("[" +:+ now w +:+ "] [" +:+ toUpperCase (LogLevel.name l) +:+ "] " +:+ message)
    (if truthy data then Some data else None).

(** The world after a logger call. *)
Definition logged (l : LogLevel.t) (message : string) (data : jsval) (w : World) : World :=
  if passes (config w) l then emit (log_event w l message data) w else w.

(** The number of timer waits of the given length among some events. *)
Fixpoint waits (ms : nat) (l : list event) : nat :=
  match l with
  | [] => 0
  | Timer n :: l' => if Nat.eqb n ms then S (waits ms l') else waits ms l'
  | ConsoleLog _ _ :: l' => waits ms l'
  end%nat.

(** A world to run examples in: the configuration loaded from an
    environment that sets the key and a chunk size. *)
Definition sample_env (chunk : string) : gmap string string :=
  <["OPENAI_API_KEY" := "sk-test"]> (<["CHUNK_SIZE" := chunk]> ∅).

Definition sample_world (chunk : string) : World :=
  {| config := ConfigManager.loadConfig (sample_env chunk);
     now := "2024-01-01T00:00:00.000Z";
     events := [];
     draws := 0%nat;
     managerInitialized := false |}.

(** The world a first [ModelManager.initialize()] leaves. *)
Definition after_initialize (w : World) : World :=
  logged LogLevel.info "ModelManager initialized successfully" VUndefined
    (set_managerInitialized true
       (logged LogLevel.debug "Model initialization simulated" VUndefined
          (emit (Timer 100)
             (logged LogLevel.info "Initializing ModelManager..." VUndefined w)))).

(** An environment variable that is missing or empty: [process.env.X || d]
    takes the default [d]. *)
Definition unset (e : gmap string string) (name : string) : Prop :=
  e !! name = None \/ e !! name = Some "".

(** The API key that [loadConfig] resolves. *)
Definition resolved_key (e : gmap string string) : string :=
  or_default (e !! "OPENAI_API_KEY") "".

(** A partial update whose [openai] section leaves [apiKey] out. *)
Definition keyless_update : ConfigManager.partial :=
  {| ConfigManager.p_openai :=
       Some {| OpenAI.apiKey := None;
               OpenAI.model := "gpt-4";
               OpenAI.temperature := Literal "0.2";
               OpenAI.maxTokens := Int 256 |};
     ConfigManager.p_embeddings := None;
     ConfigManager.p_logging := None |}.

(** The message of the precondition error of the model manager. *)
Definition not_initialized : string := "ModelManager must be initialized before use".

(** The result the mock search pairs with a document. *)
Definition hit (doc : string) : SearchResult :=
  {| content := doc; score := Literal "0.8" |}.

(** The worlds that a call of the core leaves when the manager is not
    initialized: the entry line, then the error line of the [catch]. *)
Definition refused (entry failure : string) (w : World) : World :=
  logged LogLevel.error failure (VError not_initialized)
    (logged LogLevel.info entry VUndefined w).

(** The world that a call of the core leaves when it goes through: the
    entry line, then the success line with its payload. *)
Definition served (entry success : string) (data : jsval) (w : World) : World :=
  logged LogLevel.info success data (logged LogLevel.info entry VUndefined w).

(** The store that [createVectorStore(documents)] builds. *)
Definition store_of (documents : list string) : VectorStore.t :=
  {| VectorStore.documents := documents;
     VectorStore.search := LangChainCore.search documents |}.

(** The chain that [createRAGChain(documents)] builds. *)
Definition rag_chain_of (documents : list string) : RAGChain.t :=
  {| RAGChain.vectorStore := store_of documents;
     RAGChain.call := fun query =>
       let relevantDocs := LangChainCore.search documents query None in
       {| result := "RAG response based on: " +:+ join ", " (map content relevantDocs);
          sourceDocuments := relevantDocs |} |}.

(** The [j]-th block of [c] characters of a text: the characters at the
    positions from [j * c] up to, and without, [(j + 1) * c], as far as the
    text goes. *)
Definition chunk_at (text : string) (c : nat) (j : nat) : string :=
  substring (j * c) c text.

(** The world with another chunk overlap configured. *)
Definition set_chunkOverlap (overlap : number) (w : World) : World :=
  set_config
    {| openai := openai (config w);
       embeddings :=
         {| Embeddings.model := Embeddings.model (embeddings (config w));
            Embeddings.chunkSize := Embeddings.chunkSize (embeddings (config w));
            Embeddings.chunkOverlap := overlap |};
       logging := logging (config w) |}
    w.

(** The calls that the initialized flag of the model manager guards: its
    three accessors and the seven operations of the core, with their
    arguments. *)
Inductive call : Type :=
| GetChatModel
| GetEmbeddingsModel
| GetTextSplitter
| SimpleChat (message : string) (systemPrompt : option string)
| CreatePromptChain (template : string)
| CreateVectorStore (documents : list string)
| CreateRAGChain (documents : list string)
| SimilaritySearch (query : string) (documents : list string) (k : option number)
| GetEmbeddings (text : string)
| SplitText (text : string).

(** What a call returns. *)
Definition answer (c : call) : Type :=
  match c with
  | GetChatModel | GetEmbeddingsModel | GetTextSplitter => jsval
  | SimpleChat _ _ => string
  | CreatePromptChain _ => PromptChain.t
  | CreateVectorStore _ => VectorStore.t
  | CreateRAGChain _ => RAGChain.t
  | SimilaritySearch _ _ _ => list SearchResult
  | GetEmbeddings _ => list float
  | SplitText _ => list string
  end.

(** Making the call; [fuel] is the step budget of the loop of [splitText]. *)
Definition invoke (fuel : nat) (c : call) : M World (answer c) :=
  match c with
  | GetChatModel => ModelManager.getChatModel
  | GetEmbeddingsModel => ModelManager.getEmbeddings
  | GetTextSplitter => ModelManager.getTextSplitter
  | SimpleChat message systemPrompt => LangChainCore.simpleChat message systemPrompt
  | CreatePromptChain template => LangChainCore.createPromptChain template
  | CreateVectorStore documents => LangChainCore.createVectorStore documents
  | CreateRAGChain documents => LangChainCore.createRAGChain documents
  | SimilaritySearch query documents k => LangChainCore.similaritySearch query documents k
  | GetEmbeddings text => LangChainCore.getEmbeddings text
  | SplitText text => LangChainCore.splitText fuel text
  end.

(** A chunk size that is an integer or NaN: what [parseInt] makes of
    CHUNK_SIZE. *)
Definition whole (chunkSize : number) : Prop :=
  chunkSize = NaN \/ exists z : Z, chunkSize = Int z.

(** The whole chunk sizes and the texts on which the loop of [splitText]
    ends with its chunks: the text is empty, or the counter is NaN after
    one step, or it grows by at least one a step and the array is not full
    before the end of the text is reached. *)
Definition loop_ends (chunkSize : number) (text : string) : Prop :=
  text = ""
  \/ chunkSize = NaN
  \/ exists z : Z,
       chunkSize = Int z /\ 1 <= z
       /\ Z.of_nat (String.length text) <= max_array_length * z.

(** The calls whose chunk size, if they read one, is whole. *)
Definition in_scope (c : call) (w : World) : Prop :=
  match c with
  | SplitText _ => whole (Embeddings.chunkSize (embeddings (config w)))
  | _ => True
  end.

(** A call returns whenever its loops end with their result. *)
Definition runnable (c : call) (w : World) : Prop :=
  match c with
  | SplitText text => loop_ends (Embeddings.chunkSize (embeddings (config w))) text
  | _ => True
  end.

(** The world with another chunk size written into the shared
    configuration object. *)
Definition set_chunkSize (chunkSize : number) (w : World) : World :=
  set_config
    {| openai := openai (config w);
       embeddings :=
         {| Embeddings.model := Embeddings.model (embeddings (config w));
            Embeddings.chunkSize := chunkSize;
            Embeddings.chunkOverlap := Embeddings.chunkOverlap (embeddings (config w)) |};
       logging := logging (config w) |}
    w.

(** The world that a [splitText] whose [push] threw leaves: the entry
    line, then the error line of the [catch]. *)
Definition overflowed (w : World) : World :=
  logged LogLevel.error "Error splitting text" (VError "Invalid array length")
    (logged LogLevel.info "Splitting text into chunks..." VUndefined w).

(* ================================================================== *)
(** ** Vocabulary of the further properties *)

(** The [console.log] calls among some events that carry an [Error] as
    their payload. *)
Fixpoint error_reports (l : list event) : nat :=
  match l with
  | [] => 0
  | ConsoleLog _ (Some (VError _)) :: l' => S (error_reports l')
  | _ :: l' => error_reports l'
  end%nat.

(** The key that a configuration holds, when it holds one that is not
    empty. *)
Definition usable_key (c : LangChainConfig) : Prop :=
  exists k : string, OpenAI.apiKey (openai c) = Some k /\ k <> "".

(** An application object that has just been built on [sample_world]. *)
Definition sample_starter (chunk : string) : LangChainStarter.t :=
  {| LangChainStarter.world := sample_world chunk;
     LangChainStarter.initialized := false |}.

(** A world whose log level is not one of the four: LOG_LEVEL=verbose. *)
Definition verbose_world : World :=
  {| config := ConfigManager.loadConfig (<["LOG_LEVEL" := "verbose"]> (sample_env "5"));
     now := "2024-01-01T00:00:00.000Z";
     events := [];
     draws := 0%nat;
     managerInitialized := false |}.

(** A partial update that touches the embedding settings only. *)
Definition embeddings_update : ConfigManager.partial :=
  {| ConfigManager.p_openai := None;
     ConfigManager.p_embeddings :=
       Some {| Embeddings.model := "text-embedding-3-small";
               Embeddings.chunkSize := Int 64;
               Embeddings.chunkOverlap := Int 8 |};
     ConfigManager.p_logging := None |}.

(** A partial update that brings an [openai] section with a key. *)
Definition keyed_update : ConfigManager.partial :=
  {| ConfigManager.p_openai :=
       Some {| OpenAI.apiKey := Some "sk-other";
               OpenAI.model := "gpt-4";
               OpenAI.temperature := Literal "0.2";
               OpenAI.maxTokens := Int 256 |};
     ConfigManager.p_embeddings := None;
     ConfigManager.p_logging := None |}.

(** Two worlds that differ in what was logged at most: the same
    configuration, flag and clock, and the same timer waits. *)
Definition same_settings (w w' : World) : Prop :=
  config w' = config w
  /\ managerInitialized w' = managerInitialized w
  /\ now w' = now w
  /\ forall ms : nat, waits ms (events w') = waits ms (events w).

(** The number of [catch] blocks that the precondition error of a call
    passes through before it reaches the caller: none for the accessors of
    the model manager, a second one for the two operations that build
    their store through [createVectorStore]. *)
Definition catch_blocks (c : call) : nat :=
  match c with
  | GetChatModel | GetEmbeddingsModel | GetTextSplitter => 0
  | CreateRAGChain _ | SimilaritySearch _ _ _ => 2
  | _ => 1
  end%nat.




(* ================================================================== *)
(** ** The logger *)

Lemma shouldLog_run (l : LogLevel.t) (w : World) :
  Logger.shouldLog l w =
  Return (indexOf Logger.levels (LogLevel.name l)
            >=? indexOf Logger.levels (Logging.level (logging (config w)))) w.
Proof. reflexivity. Qed.

Lemma at_level_run (l : LogLevel.t) (message : string) (data : jsval) (w : World) :
  Logger.at_level l message data w = Return tt (logged l message data w).
Proof.
  unfold logged, passes, log_event.
  destruct l; cbn [Logger.at_level];
    unfold Logger.debug, Logger.info, Logger.warn, Logger.error, bind;
    rewrite shouldLog_run;
    (destruct (_ >=? _); cbn [andb]; [| reflexivity]);
    unfold Logger.log, bind, get, console_log, modify, ret;
    destruct (Logging.enableConsole _); cbn [negb];
    try reflexivity; destruct (truthy data); reflexivity.
Qed.

Lemma debug_run (message : string) (data : jsval) (w : World) :
  Logger.debug message data w = Return tt (logged LogLevel.debug message data w).
Proof. exact (at_level_run LogLevel.debug message data w). Qed.

Lemma info_run (message : string) (data : jsval) (w : World) :
  Logger.info message data w = Return tt (logged LogLevel.info message data w).
Proof. exact (at_level_run LogLevel.info message data w). Qed.

Lemma warn_run (message : string) (data : jsval) (w : World) :
  Logger.warn message data w = Return tt (logged LogLevel.warn message data w).
Proof. exact (at_level_run LogLevel.warn message data w). Qed.

Lemma error_run (message : string) (data : jsval) (w : World) :
  Logger.error message data w = Return tt (logged LogLevel.error message data w).
Proof. exact (at_level_run LogLevel.error message data w). Qed.

(** A logger call touches nothing but the event list. *)
Lemma logged_config l message data w : config (logged l message data w) = config w.
Proof. unfold logged. destruct (passes _ _); reflexivity. Qed.

Lemma logged_flag l message data w :
  managerInitialized (logged l message data w) = managerInitialized w.
Proof. unfold logged. destruct (passes _ _); reflexivity. Qed.

Lemma logged_now l message data w : now (logged l message data w) = now w.
Proof. unfold logged. destruct (passes _ _); reflexivity. Qed.

Lemma logged_draws l message data w : draws (logged l message data w) = draws w.
Proof. unfold logged. destruct (passes _ _); reflexivity. Qed.

Lemma logged_events l message data w :
  events (logged l message data w) =
  events w ++ (if passes (config w) l then [log_event w l message data] else []).
Proof.
  unfold logged. destruct (passes _ _); cbn [events emit].
  - reflexivity.
  - symmetry. apply app_nil_r.
Qed.

Lemma waits_app ms l1 l2 : waits ms (l1 ++ l2) = (waits ms l1 + waits ms l2)%nat.
Proof.
  induction l1 as [| e l1 IH]; cbn [waits app]; [reflexivity |].
  destruct e as [line data | n]; [exact IH |].
  destruct (Nat.eqb n ms); cbn; rewrite IH; reflexivity.
Qed.

Lemma logged_waits ms l message data w :
  waits ms (events (logged l message data w)) = waits ms (events w).
Proof.
  rewrite logged_events, waits_app.
  destruct (passes _ _); cbn; lia.
Qed.

Create Rewrite HintDb logger.
Create Rewrite HintDb frame.
#[local] Hint Rewrite debug_run info_run warn_run error_run : logger.
#[local] Hint Rewrite logged_config logged_flag logged_now logged_draws : frame.

(** Runs the straight-line part of a method. *)
Ltac run :=
  repeat first
    [ progress autorewrite with logger
    | progress autorewrite with frame
    | progress unfold bind, try_catch, get, modify, ret, throw, sleep,
        ModelManager.isInitialized, ModelManager.getConfig
    | progress cbn [negb managerInitialized set_managerInitialized config emit
                    events now draws set_draws] ].

(** The filter compares ranks when the threshold is one of the four levels. *)
Lemma passes_rank (c : LangChainConfig) (threshold severity : LogLevel.t) :
  Logging.level (logging c) = LogLevel.name threshold ->
  passes c severity =
  (rank threshold <=? rank severity)%nat && Logging.enableConsole (logging c).
Proof.
  intros H. unfold passes. rewrite H.
  destruct threshold, severity; reflexivity.
Qed.

Lemma app_singleton_neq {A : Type} (l : list A) (x : A) : l ++ [x] <> l.
Proof.
  intros H. apply (f_equal (@length A)) in H.
  rewrite length_app in H. cbn in H. lia.
Qed.

(** C3.  For every message and payload, every threshold and every severity
    among debug, info, warn and error, and either value of the console flag,
    a logger call returns and appends its one formatted line to the console
    exactly when the console is enabled and the rank of the severity is at
    least the rank of the threshold; otherwise it appends nothing. *)
Theorem logger_emits_iff_enabled_and_rank
  (threshold severity : LogLevel.t) (enable : bool)
  (message : string) (data : jsval) (w : World) :
  Logging.level (logging (config w)) = LogLevel.name threshold ->
  Logging.enableConsole (logging (config w)) = enable ->
  exists w',
    Logger.at_level severity message data w = Return tt w'
    /\ (events w' = events w ++ [log_event w severity message data]
        <-> enable = true /\ (rank threshold <= rank severity)%nat)
    /\ (events w' = events w
        <-> ~ (enable = true /\ (rank threshold <= rank severity)%nat)).
Proof.
  intros Hlevel Henable.
  exists (logged severity message data w).
  split; [apply at_level_run |].
  rewrite logged_events, (passes_rank _ threshold severity Hlevel), Henable.
  destruct (Nat.leb_spec (rank threshold) (rank severity)) as [Hle | Hlt];
    destruct enable; cbn [andb]; rewrite ?app_nil_r;
    (split; split; intros H);
    first
      [ tauto
      | destruct H; discriminate
      | destruct H; lia
      | exfalso; apply (app_singleton_neq _ _ H)
      | exfalso; symmetry in H; apply (app_singleton_neq _ _ H)
      | exfalso; apply H; split; [reflexivity | assumption] ].
Qed.

Lemma logger_emits_iff_enabled_and_rank_witness :
  exists w',
    Logger.at_level LogLevel.warn "disk almost full" VUndefined (sample_world "5")
      = Return tt w'
    /\ (events w' = events (sample_world "5")
                    ++ [log_event (sample_world "5") LogLevel.warn "disk almost full" VUndefined]
        <-> true = true /\ (rank LogLevel.info <= rank LogLevel.warn)%nat)
    /\ (events w' = events (sample_world "5")
        <-> ~ (true = true /\ (rank LogLevel.info <= rank LogLevel.warn)%nat)).
Proof.
  apply (logger_emits_iff_enabled_and_rank
           LogLevel.info LogLevel.warn true "disk almost full" VUndefined
           (sample_world "5")); reflexivity.
Defined.

(* ================================================================== *)
(** ** The model manager *)

Lemma initialize_fresh (w : World) :
  managerInitialized w = false ->
  ModelManager.initialize w = Return tt (after_initialize w).
Proof.
  intros H. unfold ModelManager.initialize, ModelManager.simulateInitialization.
  run. rewrite H. run. reflexivity.
Qed.

Lemma initialize_again (w : World) :
  managerInitialized w = true ->
  ModelManager.initialize w =
  Return tt (logged LogLevel.warn "ModelManager already initialized" VUndefined w).
Proof.
  intros H. unfold ModelManager.initialize. run. rewrite H. run. reflexivity.
Qed.

Lemma after_initialize_flag (w : World) : managerInitialized (after_initialize w) = true.
Proof. unfold after_initialize. rewrite logged_flag. reflexivity. Qed.

Lemma after_initialize_config (w : World) : config (after_initialize w) = config w.
Proof.
  unfold after_initialize. rewrite logged_config. cbn [config set_managerInitialized].
  rewrite logged_config. cbn [config emit]. apply logged_config.
Qed.

Lemma after_initialize_waits (w : World) :
  waits 100 (events (after_initialize w)) = S (waits 100 (events w)).
Proof.
  unfold after_initialize. rewrite logged_waits. cbn [events set_managerInitialized].
  rewrite logged_waits. cbn [events emit]. rewrite waits_app, logged_waits.
  cbn. lia.
Qed.

(** [initialize()] never throws and always leaves the flag set. *)
Lemma initialize_succeeds (w : World) :
  exists w', ModelManager.initialize w = Return tt w'
             /\ managerInitialized w' = true /\ config w' = config w.
Proof.
  destruct (managerInitialized w) eqn:H.
  - eexists. split; [apply initialize_again, H |].
    rewrite logged_flag, logged_config. auto.
  - eexists. split; [apply initialize_fresh, H |].
    rewrite after_initialize_flag, after_initialize_config. auto.
Qed.

(** C7.  From the uninitialized state two calls of
    [ModelManager.initialize()] in a row both return; the 100 ms
    initialization wait happens once, in the first call; the second call
    does nothing but [logger.warn("ModelManager already initialized")],
    whose line reaches the console when warnings pass the logger's filter;
    and the flag and the configuration after the second call are those
    after the first. *)
Theorem initialize_idempotent (w0 : World) :
  managerInitialized w0 = false ->
  exists w1 w2,
    ModelManager.initialize w0 = Return tt w1
    /\ ModelManager.initialize w1 = Return tt w2
    /\ waits 100 (events w1) = S (waits 100 (events w0))
    /\ waits 100 (events w2) = S (waits 100 (events w0))
    /\ Logger.warn "ModelManager already initialized" VUndefined w1 = Return tt w2
    /\ events w2 =
       events w1 ++
       (if passes (config w1) LogLevel.warn
        then [ConsoleLog ("[" +:+ now w1 +:+ "] [WARN] ModelManager already initialized") None]
        else [])
    /\ managerInitialized w1 = true
    /\ managerInitialized w2 = true
    /\ config w2 = config w1
    /\ draws w2 = draws w1.
Proof.
  intros H0.
  exists (after_initialize w0).
  exists (logged LogLevel.warn "ModelManager already initialized" VUndefined
            (after_initialize w0)).
  split; [apply initialize_fresh, H0 |].
  split; [apply initialize_again, after_initialize_flag |].
  split; [apply after_initialize_waits |].
  split; [rewrite logged_waits; apply after_initialize_waits |].
  split; [apply warn_run |].
  split; [apply logged_events |].
  rewrite logged_flag, logged_config, logged_draws, after_initialize_flag.
  auto.
Qed.

Lemma initialize_idempotent_witness :
  exists w1 w2,
    ModelManager.initialize (sample_world "5") = Return tt w1
    /\ ModelManager.initialize w1 = Return tt w2
    /\ waits 100 (events w1) = S (waits 100 (events (sample_world "5")))
    /\ waits 100 (events w2) = S (waits 100 (events (sample_world "5")))
    /\ Logger.warn "ModelManager already initialized" VUndefined w1 = Return tt w2
    /\ events w2 =
       events w1 ++
       (if passes (config w1) LogLevel.warn
        then [ConsoleLog ("[" +:+ now w1 +:+ "] [WARN] ModelManager already initialized") None]
        else [])
    /\ managerInitialized w1 = true
    /\ managerInitialized w2 = true
    /\ config w2 = config w1
    /\ draws w2 = draws w1.
Proof.
  apply (initialize_idempotent (sample_world "5")). reflexivity.
Defined.

(* ================================================================== *)
(** ** The configuration manager *)

Lemma or_default_unset (e : gmap string string) (name d : string) :
  unset e name -> or_default (e !! name) d = d.
Proof. intros [H | H]; rewrite H; reflexivity. Qed.

Lemma loadConfig_key_absent (e : gmap string string) :
  ConfigManager.key_absent (ConfigManager.loadConfig e) = String.eqb (resolved_key e) "".
Proof. reflexivity. Qed.

Lemma new_run (e : gmap string string) :
  ConfigManager.new e =
  if String.eqb (resolved_key e) ""
  then Throw "OPENAI_API_KEY environment variable is required"
         {| ConfigManager.config := ConfigManager.loadConfig e |}
  else Return tt {| ConfigManager.config := ConfigManager.loadConfig e |}.
Proof.
  unfold ConfigManager.new, ConfigManager.validateConfig, bind, get.
  cbn [ConfigManager.config]. rewrite loadConfig_key_absent.
  destruct (String.eqb _ _); reflexivity.
Qed.

(** C2.  The first [ConfigManager.getInstance()] throws if and only if the
    resolved API key (OPENAI_API_KEY, or the empty string when it is not
    set) is empty, and then leaves the singleton slot empty; when the key is
    not empty it returns the instance, stores it in the slot, and every
    other setting whose variable is not set has its documented default. *)
Theorem construction_fails_iff_key_empty (e : gmap string string) :
  ((exists msg slot, ConfigManager.getInstance e None = Throw msg slot)
   <-> resolved_key e = "")
  /\ (resolved_key e = "" ->
      ConfigManager.getInstance e None =
      Throw "OPENAI_API_KEY environment variable is required" None)
  /\ (resolved_key e <> "" ->
      exists i,
        ConfigManager.getInstance e None = Return i (Some i)
        /\ ConfigManager.getConfig i = Return (ConfigManager.loadConfig e) i
        /\ let c := ConfigManager.config i in
           OpenAI.apiKey (openai c) = Some (resolved_key e)
           /\ (unset e "OPENAI_MODEL" -> OpenAI.model (openai c) = "gpt-3.5-turbo")
           /\ (unset e "OPENAI_TEMPERATURE" ->
               OpenAI.temperature (openai c) = ParseFloat "0.7")
           /\ (unset e "OPENAI_MAX_TOKENS" -> OpenAI.maxTokens (openai c) = Int 1000)
           /\ (unset e "EMBEDDING_MODEL" ->
               Embeddings.model (embeddings c) = "text-embedding-ada-002")
           /\ (unset e "CHUNK_SIZE" -> Embeddings.chunkSize (embeddings c) = Int 1000)
           /\ (unset e "CHUNK_OVERLAP" ->
               Embeddings.chunkOverlap (embeddings c) = Int 200)
           /\ (unset e "LOG_LEVEL" -> Logging.level (logging c) = "info")
           /\ (e !! "ENABLE_CONSOLE_LOGGING" <> Some "false" ->
               Logging.enableConsole (logging c) = true)).
Proof.
  unfold ConfigManager.getInstance. rewrite new_run.
  destruct (String.eqb_spec (resolved_key e) "") as [Hk | Hk].
  - split; [| split].
    + split; [intros _; exact Hk | intros _; eauto].
    + reflexivity.
    + intros Hne. contradiction.
  - split; [| split].
    + split; [intros (msg & slot & H); discriminate | intros H; contradiction].
    + intros H. contradiction.
    + intros _. eexists. split; [reflexivity |]. split; [reflexivity |].
      cbn [ConfigManager.config ConfigManager.loadConfig openai embeddings logging
           OpenAI.apiKey OpenAI.model OpenAI.temperature OpenAI.maxTokens
           Embeddings.model Embeddings.chunkSize Embeddings.chunkOverlap
           Logging.level Logging.enableConsole].
      repeat split; try (intros H; rewrite (or_default_unset _ _ _ H); reflexivity).
      intros H. destruct (e !! "ENABLE_CONSOLE_LOGGING") as [v |]; [| reflexivity].
      destruct (String.eqb_spec v "false") as [-> | Hv]; [contradiction | reflexivity].
Qed.

Lemma construction_fails_iff_key_empty_witness :
  exists i,
    ConfigManager.getInstance (sample_env "5") None = Return i (Some i)
    /\ OpenAI.apiKey (openai (ConfigManager.config i)) = Some "sk-test"
    /\ OpenAI.model (openai (ConfigManager.config i)) = "gpt-3.5-turbo"
    /\ Embeddings.chunkOverlap (embeddings (ConfigManager.config i)) = Int 200.
Proof.
  destruct (construction_fails_iff_key_empty (sample_env "5")) as (_ & _ & H).
  destruct H as (i & Hi & _ & Hkey & Hmodel & _ & _ & _ & _ & Hoverlap & _).
  - vm_compute. discriminate.
  - exists i. split; [exact Hi |]. split; [exact Hkey |].
    split; [apply Hmodel | apply Hoverlap]; left; reflexivity.
Defined.

Lemma updateConfig_run (p : ConfigManager.partial) (this : ConfigManager.t) :
  ConfigManager.updateConfig p this =
  let merged := {| ConfigManager.config := ConfigManager.spread (ConfigManager.config this) p |} in
  if ConfigManager.key_absent (ConfigManager.config merged)
  then Throw "OPENAI_API_KEY environment variable is required" merged
  else Return tt merged.
Proof.
  unfold ConfigManager.updateConfig, ConfigManager.validateConfig, bind, modify, get.
  cbn [ConfigManager.config].
  destruct (ConfigManager.key_absent _); reflexivity.
Qed.

(** C9.  When [updateConfig(partial)] throws, it throws the validation
    error after the singleton's configuration has been replaced by the
    merged record: the instance left behind holds the merge, whose API key
    is missing or empty, [getConfig()] returns that merge, and it is not the
    configuration from before the update when that one had a key. *)
Theorem updateConfig_not_atomic
  (p : ConfigManager.partial) (this this' : ConfigManager.t) (msg : string) :
  ConfigManager.updateConfig p this = Throw msg this' ->
  msg = "OPENAI_API_KEY environment variable is required"
  /\ ConfigManager.config this' = ConfigManager.spread (ConfigManager.config this) p
  /\ ConfigManager.key_absent (ConfigManager.config this') = true
  /\ ConfigManager.getConfig this' =
     Return (ConfigManager.spread (ConfigManager.config this) p) this'
  /\ (ConfigManager.key_absent (ConfigManager.config this) = false ->
      ConfigManager.config this' <> ConfigManager.config this).
Proof.
  rewrite updateConfig_run. cbv zeta.
  destruct (ConfigManager.key_absent _) eqn:Habs; [| discriminate].
  intros H. injection H as <- <-.
  cbn [ConfigManager.config] in *.
  repeat split; try assumption.
  intros Hold Heq. rewrite Heq in Habs. congruence.
Qed.

Lemma updateConfig_not_atomic_witness :
  exists this this',
    ConfigManager.getInstance (sample_env "5") None = Return this (Some this)
    /\ ConfigManager.updateConfig keyless_update this
       = Throw "OPENAI_API_KEY environment variable is required" this'
    /\ OpenAI.apiKey (openai (ConfigManager.config this')) = None
    /\ OpenAI.model (openai (ConfigManager.config this')) = "gpt-4"
    /\ ConfigManager.config this' <> ConfigManager.config this.
Proof.
  exists {| ConfigManager.config := ConfigManager.loadConfig (sample_env "5") |}.
  exists {| ConfigManager.config :=
              ConfigManager.spread (ConfigManager.loadConfig (sample_env "5"))
                                   keyless_update |}.
  split; [reflexivity |].
  split; [reflexivity |].
  destruct (updateConfig_not_atomic keyless_update
              {| ConfigManager.config := ConfigManager.loadConfig (sample_env "5") |}
              _ _ eq_refl)
    as (_ & Hcfg & _ & _ & Hne).
  split; [reflexivity |]. split; [reflexivity |].
  apply Hne. reflexivity.
Defined.

(* ================================================================== *)
(** ** The vector store and the chains built on it *)

Lemma createVectorStore_refused (documents : list string) (w : World) :
  managerInitialized w = false ->
  LangChainCore.createVectorStore documents w =
  Throw not_initialized
    (refused "Creating vector store..." "Error creating vector store" w).
Proof.
  intros H. unfold LangChainCore.createVectorStore. run. rewrite H. run.
  reflexivity.
Qed.

Lemma createVectorStore_served (documents : list string) (w : World) :
  managerInitialized w = true ->
  LangChainCore.createVectorStore documents w =
  Return (store_of documents)
    (served "Creating vector store..." "Vector store created successfully"
       (VObject [("docCount", Int (Z.of_nat (length documents)))]) w).
Proof.
  intros H. unfold LangChainCore.createVectorStore. run. rewrite H. run.
  reflexivity.
Qed.

Lemma createRAGChain_served (documents : list string) (w : World) :
  managerInitialized w = true ->
  LangChainCore.createRAGChain documents w =
  Return (rag_chain_of documents)
    (logged LogLevel.info "RAG chain created successfully" VUndefined
       (served "Creating vector store..." "Vector store created successfully"
          (VObject [("docCount", Int (Z.of_nat (length documents)))])
          (logged LogLevel.info "Creating RAG chain..." VUndefined w))).
Proof.
  intros H. unfold LangChainCore.createRAGChain. run.
  rewrite createVectorStore_served by (rewrite logged_flag; exact H).
  run. reflexivity.
Qed.

Lemma clamp_index_nonneg (len : nat) (z : Z) :
  0 <= z -> clamp_index len (Finite z) = Z.to_nat (Z.min z (Z.of_nat len)).
Proof.
  intros H. unfold clamp_index.
  destruct (Z.ltb_spec z 0); [lia | reflexivity].
Qed.

(** [l.slice(0, k)] for a count [k] that is not negative. *)
Lemma array_slice_prefix {A : Type} (l : list A) (k : Z) :
  0 <= k ->
  array_slice l (Int 0) (Int k) = take (Z.to_nat (Z.min k (Z.of_nat (length l)))) l.
Proof.
  intros H. unfold array_slice. cbn [to_integer].
  rewrite !clamp_index_nonneg by lia.
  replace (Z.to_nat (Z.min 0 (Z.of_nat (length l)))) with 0%nat by lia.
  rewrite drop_0. f_equal. lia.
Qed.

(** [l.slice(0, k)] for a negative [k]: all but the last [-k]. *)
Lemma array_slice_negative {A : Type} (l : list A) (k : Z) :
  k < 0 ->
  array_slice l (Int 0) (Int k) = take (Z.to_nat (Z.of_nat (length l) + k)) l.
Proof.
  intros H. unfold array_slice. cbn [to_integer].
  rewrite (clamp_index_nonneg _ 0) by lia.
  replace (Z.to_nat (Z.min 0 (Z.of_nat (length l)))) with 0%nat by lia.
  unfold clamp_index. destruct (Z.ltb_spec k 0); [| lia].
  rewrite drop_0. f_equal. lia.
Qed.

Lemma search_ignores_query (documents : list string) (q q' : string) (k : option number) :
  LangChainCore.search documents q k = LangChainCore.search documents q' k.
Proof. reflexivity. Qed.

Lemma search_prefix (documents : list string) (q : string) (k : Z) :
  0 <= k ->
  LangChainCore.search documents q (Some (Int k)) =
  map hit (take (Z.to_nat (Z.min k (Z.of_nat (length documents)))) documents).
Proof.
  intros H. unfold LangChainCore.search. cbn [from_option id].
  rewrite array_slice_prefix by exact H. reflexivity.
Qed.

Lemma take_min_length {A : Type} (l : list A) (k : Z) :
  0 <= k -> take (Z.to_nat (Z.min k (Z.of_nat (length l)))) l = take (Z.to_nat k) l.
Proof.
  intros H. destruct (Z.le_gt_cases k (Z.of_nat (length l))).
  - f_equal. lia.
  - rewrite !take_ge by lia. reflexivity.
Qed.

(** An omitted [k] is 4. *)
Lemma search_default (documents : list string) (q : string) :
  LangChainCore.search documents q None = map hit (take 4 documents).
Proof.
  unfold LangChainCore.search. cbn [from_option id].
  rewrite array_slice_prefix, take_min_length by lia. reflexivity.
Qed.

(** C4, as amended.  For every document list, every query and every
    integer [k] that is not negative, the store made by
    [createVectorStore(docs)] once the manager is initialized holds [docs],
    and its [search(query, k)] returns exactly [min(k, docs.length)]
    results: the first that many documents in order, each with score 0.8;
    the query has no effect on the result, whatever [k] is. *)
Theorem search_returns_first_k
  (docs : list string) (query : string) (k : Z) (w : World) :
  managerInitialized w = true ->
  0 <= k ->
  exists store w',
    LangChainCore.createVectorStore docs w = Return store w'
    /\ VectorStore.documents store = docs
    /\ VectorStore.search store query (Some (Int k)) =
       map (fun doc => {| content := doc; score := Literal "0.8" |})
           (take (Z.to_nat (Z.min k (Z.of_nat (length docs)))) docs)
    /\ Z.of_nat (length (VectorStore.search store query (Some (Int k))))
       = Z.min k (Z.of_nat (length docs))
    /\ (forall (query' : string) (k' : option number),
          VectorStore.search store query' k' = VectorStore.search store query k').
Proof.
  intros Hinit Hk. eexists. eexists.
  split; [apply createVectorStore_served, Hinit |].
  cbn [store_of VectorStore.documents VectorStore.search].
  rewrite search_prefix by exact Hk.
  repeat split.
  rewrite length_map, length_take. lia.
Qed.

Lemma search_returns_first_k_witness :
  exists store w',
    LangChainCore.createVectorStore ["a"; "b"; "c"] (after_initialize (sample_world "5"))
      = Return store w'
    /\ VectorStore.search store "anything" (Some (Int 2)) =
       [ {| content := "a"; score := Literal "0.8" |};
         {| content := "b"; score := Literal "0.8" |} ].
Proof.
  destruct (search_returns_first_k ["a"; "b"; "c"] "anything" 2
              (after_initialize (sample_world "5")))
    as (store & w' & Hrun & _ & Hsearch & _).
  - reflexivity.
  - lia.
  - exists store, w'. split; [exact Hrun | exact Hsearch].
Defined.

(** C4, as stated, fails for a negative [k]: on three documents
    [search("anything", -1)] returns the first two, where
    [min(k, docs.length)] is -1. *)
Lemma search_negative_k :
  exists store w',
    LangChainCore.createVectorStore ["a"; "b"; "c"] (after_initialize (sample_world "5"))
      = Return store w'
    /\ VectorStore.search store "anything" (Some (Int (-1))) = [hit "a"; hit "b"]
    /\ Z.of_nat (length (VectorStore.search store "anything" (Some (Int (-1)))))
       <> Z.min (-1) (Z.of_nat (length ["a"; "b"; "c"])).
Proof.
  eexists. eexists.
  split; [apply createVectorStore_served; reflexivity |].
  split; [reflexivity |]. cbn. lia.
Qed.

(** What [search] does with the other values of [k]. *)
Lemma search_negative (documents : list string) (q : string) (k : Z) :
  k < 0 ->
  LangChainCore.search documents q (Some (Int k)) =
  map hit (take (Z.to_nat (Z.of_nat (length documents) + k)) documents).
Proof.
  intros H. unfold LangChainCore.search. cbn [from_option id].
  rewrite array_slice_negative by exact H. reflexivity.
Qed.

Lemma search_nan (documents : list string) (q : string) :
  LangChainCore.search documents q (Some NaN) = [].
Proof.
  unfold LangChainCore.search, array_slice. cbn [from_option id to_integer].
  rewrite clamp_index_nonneg by lia.
  replace (Z.to_nat (Z.min 0 (Z.of_nat (length documents))) - _)%nat with 0%nat by lia.
  reflexivity.
Qed.

(** C8, as amended.  For every document list and every query, the chain
    made by [createRAGChain(docs)] once the manager is initialized, called
    with the query, returns a response whose [sourceDocuments] is the result
    of the search of the chain's own store with [k] omitted, that is the
    first four documents at most, each with score 0.8, and whose [result] is
    the text "RAG response based on: " followed by the contents of those
    documents joined with ", "; the query changes nothing in the response. *)
Theorem rag_chain_response (docs : list string) (q : string) (w : World) :
  managerInitialized w = true ->
  exists chain w',
    LangChainCore.createRAGChain docs w = Return chain w'
    /\ VectorStore.documents (RAGChain.vectorStore chain) = docs
    /\ sourceDocuments (RAGChain.call chain q)
       = VectorStore.search (RAGChain.vectorStore chain) q None
    /\ sourceDocuments (RAGChain.call chain q)
       = map (fun doc => {| content := doc; score := Literal "0.8" |}) (take 4 docs)
    /\ result (RAGChain.call chain q)
       = "RAG response based on: "
         +:+ join ", " (map content (sourceDocuments (RAGChain.call chain q)))
    /\ (forall q' : string, RAGChain.call chain q' = RAGChain.call chain q).
Proof.
  intros Hinit. eexists. eexists.
  split; [apply createRAGChain_served, Hinit |].
  cbn [rag_chain_of RAGChain.vectorStore RAGChain.call store_of
       VectorStore.documents VectorStore.search sourceDocuments result].
  rewrite search_default. repeat split.
  intros q'. rewrite search_default. reflexivity.
Qed.

Lemma rag_chain_response_witness :
  exists chain w',
    LangChainCore.createRAGChain ["a"; "b"] (after_initialize (sample_world "5"))
      = Return chain w'
    /\ result (RAGChain.call chain "which?") = "RAG response based on: a, b"
    /\ sourceDocuments (RAGChain.call chain "which?") = [hit "a"; hit "b"].
Proof.
  destruct (rag_chain_response ["a"; "b"] "which?" (after_initialize (sample_world "5")))
    as (chain & w' & Hrun & _ & _ & Hsrc & Hres & _).
  - reflexivity.
  - exists chain, w'. split; [exact Hrun |].
    split; [rewrite Hres, Hsrc; reflexivity | exact Hsrc].
Defined.

(** C8, as stated, fails: the [result] field is not the concatenation of
    the contents of the returned documents. *)
Lemma rag_result_not_concatenation :
  exists chain w',
    LangChainCore.createRAGChain ["a"; "b"] (after_initialize (sample_world "5"))
      = Return chain w'
    /\ sourceDocuments (RAGChain.call chain "which?") = [hit "a"; hit "b"]
    /\ result (RAGChain.call chain "which?") = "RAG response based on: a, b"
    /\ result (RAGChain.call chain "which?")
       <> join "" (map content (sourceDocuments (RAGChain.call chain "which?"))).
Proof.
  eexists. eexists.
  split; [apply createRAGChain_served; reflexivity |].
  split; [reflexivity |]. split; [reflexivity |].
  cbn. discriminate.
Qed.

(* ================================================================== *)
(** ** Text splitting *)

Lemma substring_empty (n m : nat) : substring n m "" = "".
Proof. destruct n, m; reflexivity. Qed.

Lemma substring_zero (n : nat) (s : string) : substring n 0 s = "".
Proof.
  revert n. induction s as [| a s IH]; intros [| n]; cbn; try reflexivity.
  apply IH.
Qed.

Lemma length_substring (s : string) (n m : nat) :
  String.length (substring n m s) = Nat.min m (String.length s - n).
Proof.
  revert n m. induction s as [| a s IH]; intros n m.
  - rewrite substring_empty. cbn. lia.
  - destruct n as [| n].
    + destruct m as [| m]; cbn; [reflexivity |].
      rewrite IH. cbn. lia.
    + cbn. apply IH.
Qed.

(** A span that runs over the end of the string is cut at the end. *)
Lemma substring_cut (s : string) (n m : nat) :
  substring n (Nat.min m (String.length s - n)) s = substring n m s.
Proof.
  revert n m. induction s as [| a s IH]; intros n m.
  - rewrite !substring_empty. reflexivity.
  - destruct n as [| n].
    + destruct m as [| m]; cbn; [reflexivity |].
      f_equal. rewrite <- (IH 0%nat m). f_equal. lia.
    + cbn. apply IH.
Qed.

Lemma substring_whole (s : string) (m : nat) :
  (String.length s <= m)%nat -> substring 0 m s = s.
Proof.
  revert m. induction s as [| a s IH]; intros m H.
  - apply substring_empty.
  - destruct m as [| m]; cbn in *; [lia |].
    f_equal. apply IH. lia.
Qed.

Lemma append_cons (x : ascii) (s t : string) :
  String x s +:+ t = String x (s +:+ t).
Proof. reflexivity. Qed.

Lemma append_empty_r (s : string) : s +:+ "" = s.
Proof.
  induction s as [| x s IH]; [reflexivity |].
  rewrite append_cons, IH. reflexivity.
Qed.

Lemma append_assoc (s t u : string) : (s +:+ t) +:+ u = s +:+ (t +:+ u).
Proof.
  induction s as [| x s IH]; [reflexivity |].
  rewrite !append_cons, IH. reflexivity.
Qed.

(** Two spans that follow each other make one span. *)
Lemma substring_consecutive (s : string) (a b : nat) :
  substring 0 a s +:+ substring a b s = substring 0 (a + b) s.
Proof.
  revert a b. induction s as [| x s IH]; intros a b.
  - rewrite !substring_empty. reflexivity.
  - destruct a as [| a].
    + rewrite substring_zero. reflexivity.
    + cbn [substring Nat.add]. rewrite append_cons. f_equal. apply IH.
Qed.

Lemma join_empty_cons (x : string) (l : list string) :
  join "" (x :: l) = x +:+ join "" l.
Proof.
  unfold join. destruct l as [| y l]; cbn [concat].
  - symmetry. apply append_empty_r.
  - reflexivity.
Qed.

Lemma join_empty_snoc (l : list string) (x : string) :
  join "" (l ++ [x]) = join "" l +:+ x.
Proof.
  induction l as [| y l IH].
  - cbn [app]. rewrite join_empty_cons. cbn. apply append_empty_r.
  - cbn [app]. rewrite !join_empty_cons, IH. symmetry. apply append_assoc.
Qed.

(** [push] on an array that is not full. *)
Lemma push_room {A : Type} (l : list A) (x : A) :
  Z.of_nat (length l) < max_array_length -> push l x = Some (l ++ [x]).
Proof.
  intros H. unfold push.
  destruct (Z.ltb_spec (Z.of_nat (length l)) max_array_length); [reflexivity | lia].
Qed.

Lemma push_full {A : Type} (l : list A) (x : A) :
  max_array_length <= Z.of_nat (length l) -> push l x = None.
Proof.
  intros H. unfold push.
  destruct (Z.ltb_spec (Z.of_nat (length l)) max_array_length); [lia | reflexivity].
Qed.

Lemma max_array_length_positive : 0 < max_array_length.
Proof. reflexivity. Qed.

(** The chunking loop with an integer chunk size of at least one. *)
Section PositiveChunkSize.

Variable text : string.
Variable c : Z.
Hypothesis c_positive : 1 <= c.

Let len : Z := Z.of_nat (String.length text).

(** The slice that one iteration pushes. *)
Lemma slice_block (k : nat) :
  Z.of_nat k * c < len ->
  slice text (Int (Z.of_nat k * c)) (num_add (Int (Z.of_nat k * c)) (Int c))
  = chunk_at text (Z.to_nat c) k.
Proof.
  intros Hk. unfold slice, chunk_at. cbn [num_add to_integer].
  rewrite !clamp_index_nonneg by lia.
  rewrite <- (substring_cut text (k * Z.to_nat c) (Z.to_nat c)).
  f_equal; subst len; lia.
Qed.

(** From the [k]-th test of the condition on, with [k] chunks pushed, an
    array that holds the chunks of the whole text, and steps enough to
    reach the end of the text: the loop returns, having pushed the blocks
    [k], [k + 1], ..., up to the first one that starts at or after the
    end. *)
Lemma chunk_loop_blocks (fuel k : nat) (chunks : list string) :
  length chunks = k ->
  len <= max_array_length * c ->
  Z.max 0 (len - Z.of_nat k * c) < Z.of_nat fuel ->
  exists n : nat,
    LangChainCore.chunk_loop fuel text (Int c) (Int (Z.of_nat k * c)) chunks
    = Some (inr (chunks ++ map (chunk_at text (Z.to_nat c)) (seq k n)))
    /\ len <= Z.of_nat (k + n) * c
    /\ (n = 0%nat \/ (Z.of_nat (k + n) - 1) * c < len).
Proof.
  intros Hlength Hroom. revert k chunks Hlength.
  induction fuel as [| fuel IH]; intros k chunks Hlength Hfuel; [lia |].
  cbn [LangChainCore.chunk_loop num_lt]. fold len.
  destruct (Z.ltb_spec (Z.of_nat k * c) len) as [Hlt | Hge].
  - rewrite push_room by (rewrite Hlength; nia).
    destruct (IH (S k) (chunks ++ [chunk_at text (Z.to_nat c) k])) as (n & Hrun & Hup & Hlow).
    { rewrite length_app, Hlength. cbn. lia. }
    { nia. }
    exists (S n). rewrite slice_block by exact Hlt.
    cbn [num_add]. replace (Z.of_nat k * c + c) with (Z.of_nat (S k) * c) by lia.
    rewrite Hrun, <- app_assoc. cbn [seq map app].
    split; [reflexivity |].
    split; [replace (k + S n)%nat with (S k + n)%nat by lia; exact Hup |].
    right. destruct Hlow as [-> | Hlow].
    + replace (Z.of_nat (k + 1) - 1) with (Z.of_nat k) by lia. exact Hlt.
    + replace (k + S n)%nat with (S k + n)%nat by lia. exact Hlow.
  - exists 0%nat. cbn [seq map]. rewrite app_nil_r.
    split; [reflexivity |]. split; [| left; reflexivity].
    replace (k + 0)%nat with k by lia. lia.
Qed.

(** The whole loop: [n] blocks, [n] the least number of blocks of [c]
    characters that cover the text. *)
Lemma chunk_loop_positive (fuel : nat) :
  len <= max_array_length * c ->
  (String.length text < fuel)%nat ->
  exists n : nat,
    LangChainCore.chunk_loop fuel text (Int c) (Int 0) []
    = Some (inr (map (chunk_at text (Z.to_nat c)) (seq 0 n)))
    /\ len <= Z.of_nat n * c
    /\ (n = 0%nat \/ (Z.of_nat n - 1) * c < len).
Proof.
  intros Hroom Hfuel.
  destruct (chunk_loop_blocks fuel 0 [] eq_refl Hroom) as (n & Hrun & Hup & Hlow).
  { subst len. cbn. lia. }
  exists n. change (Z.of_nat 0 * c) with 0 in Hrun.
  cbn [app Nat.add] in *. auto.
Qed.

(** A text that takes more chunks than an array holds: the loop fills the
    array and the next [push] throws, once it is given the steps to get
    there; before that it is still under way. *)
Lemma chunk_loop_overflow (fuel k : nat) (chunks : list string) :
  length chunks = k ->
  Z.of_nat k <= max_array_length ->
  max_array_length * c < len ->
  LangChainCore.chunk_loop fuel text (Int c) (Int (Z.of_nat k * c)) chunks
  = if max_array_length - Z.of_nat k <? Z.of_nat fuel
    then Some (inl "Invalid array length") else None.
Proof.
  intros Hlength Hk Hlong. revert k chunks Hlength Hk.
  induction fuel as [| fuel IH]; intros k chunks Hlength Hk.
  - cbn [LangChainCore.chunk_loop].
    destruct (Z.ltb_spec (max_array_length - Z.of_nat k) (Z.of_nat 0)); [lia | reflexivity].
  - cbn [LangChainCore.chunk_loop num_lt num_add]. fold len.
    destruct (Z.ltb_spec (Z.of_nat k * c) len) as [_ | Hge]; [| nia].
    destruct (Z.eq_dec (Z.of_nat k) max_array_length) as [Hfull | Hroom].
    + rewrite push_full by lia.
      destruct (Z.ltb_spec (max_array_length - Z.of_nat k) (Z.of_nat (S fuel)));
        [reflexivity | lia].
    + rewrite push_room by lia.
      replace (Z.of_nat k * c + c) with (Z.of_nat (S k) * c) by lia.
      rewrite IH by (rewrite ?length_app, ?Hlength; cbn; lia).
      destruct (Z.ltb_spec (max_array_length - Z.of_nat (S k)) (Z.of_nat fuel)),
        (Z.ltb_spec (max_array_length - Z.of_nat k) (Z.of_nat (S fuel)));
        (reflexivity || lia).
Qed.

(** The first [n] blocks, put end to end, are the first [n * c] characters. *)
Lemma join_blocks (n : nat) :
  join "" (map (chunk_at text (Z.to_nat c)) (seq 0 n))
  = substring 0 (n * Z.to_nat c) text.
Proof.
  induction n as [| n IH].
  - cbn. symmetry. apply substring_zero.
  - rewrite seq_S, map_app. cbn [map Nat.add].
    rewrite join_empty_snoc, IH. unfold chunk_at.
    rewrite substring_consecutive. f_equal. lia.
Qed.

Lemma length_block (j : nat) :
  Z.of_nat (String.length (chunk_at text (Z.to_nat c) j))
  = Z.min c (Z.max 0 (len - Z.of_nat j * c)).
Proof. unfold chunk_at. rewrite length_substring. subst len. nia. Qed.

End PositiveChunkSize.

(** With an integer chunk size of zero or less the counter never passes the
    end of a text that has characters: the loop pushes until the array is
    full and the next [push] throws, once it is given the steps to get
    there; before that it is still under way.  It never returns chunks. *)
Lemma chunk_loop_stuck (text : string) (c : Z) (fuel : nat) (i : Z) (chunks : list string) :
  c <= 0 -> i <= 0 -> text <> "" ->
  Z.of_nat (length chunks) <= max_array_length ->
  LangChainCore.chunk_loop fuel text (Int c) (Int i) chunks
  = if max_array_length - Z.of_nat (length chunks) <? Z.of_nat fuel
    then Some (inl "Invalid array length") else None.
Proof.
  intros Hc Hi Htext. revert i chunks Hi.
  induction fuel as [| fuel IH]; intros i chunks Hi Hlength.
  - cbn [LangChainCore.chunk_loop].
    destruct (Z.ltb_spec (max_array_length - Z.of_nat (length chunks)) (Z.of_nat 0));
      [lia | reflexivity].
  - cbn [LangChainCore.chunk_loop num_lt num_add].
    destruct (Z.ltb_spec i (Z.of_nat (String.length text))) as [_ | Hge].
    + destruct (Z.eq_dec (Z.of_nat (length chunks)) max_array_length) as [Hfull | Hroom].
      * rewrite push_full by lia.
        destruct (Z.ltb_spec (max_array_length - Z.of_nat (length chunks))
                    (Z.of_nat (S fuel))); [reflexivity | lia].
      * rewrite push_room by lia.
        rewrite IH by (rewrite ?length_app; cbn; lia).
        rewrite length_app. cbn [length].
        destruct (Z.ltb_spec (max_array_length - Z.of_nat (length chunks + 1))
                    (Z.of_nat fuel)),
          (Z.ltb_spec (max_array_length - Z.of_nat (length chunks)) (Z.of_nat (S fuel)));
          (reflexivity || lia).
    + destruct text; [contradiction | cbn in Hge; lia].
Qed.

(** With NaN for a chunk size the loop pushes one empty slice and stops. *)
Lemma chunk_loop_nan (text : string) (fuel : nat) :
  text <> "" ->
  LangChainCore.chunk_loop (S (S fuel)) text NaN (Int 0) [] = Some (inr [""]).
Proof.
  intros Htext. destruct text as [| a text]; [contradiction |].
  cbn [LangChainCore.chunk_loop num_lt num_add String.length].
  destruct (Z.ltb_spec 0 (Z.of_nat (S (String.length text)))) as [_ | H]; [| lia].
  rewrite push_room by reflexivity.
  cbn [app]. unfold slice. cbn [to_integer].
  rewrite clamp_index_nonneg by lia.
  replace (Z.to_nat (Z.min 0 _)) with 0%nat by lia.
  reflexivity.
Qed.

(** On the empty text the loop is not entered. *)
Lemma chunk_loop_empty (chunkSize : number) (fuel : nat) :
  LangChainCore.chunk_loop (S fuel) "" chunkSize (Int 0) [] = Some (inr []).
Proof. reflexivity. Qed.

Lemma splitText_refused (fuel : nat) (text : string) (w : World) :
  managerInitialized w = false ->
  LangChainCore.splitText fuel text w =
  Throw not_initialized
    (refused "Splitting text into chunks..." "Error splitting text" w).
Proof.
  intros H. unfold LangChainCore.splitText. run. rewrite H. run. reflexivity.
Qed.

(** An initialized manager: the call ends as the loop ends, and the
    RangeError of a full array goes through the [catch], which logs it. *)
Lemma splitText_served (fuel : nat) (text : string) (w : World) :
  managerInitialized w = true ->
  LangChainCore.splitText fuel text w =
  match LangChainCore.chunk_loop fuel text
          (Embeddings.chunkSize (embeddings (config w))) (Int 0) [] with
  | Some (inr chunks) =>
      Return chunks
        (served "Splitting text into chunks..." "Text split successfully"
           (VObject [("chunkCount", Int (Z.of_nat (length chunks)))]) w)
  | Some (inl message) =>
      Throw message
        (logged LogLevel.error "Error splitting text" (VError message)
           (logged LogLevel.info "Splitting text into chunks..." VUndefined w))
  | None => Unfinished
  end.
Proof.
  intros H. unfold LangChainCore.splitText, LangChainCore.run_chunk_loop.
  run. rewrite H. run.
  destruct (LangChainCore.chunk_loop _ _ _ _ _) as [[message | chunks] |];
    run; reflexivity.
Qed.

(** With an integer chunk size of zero or less and a text that has
    characters, [splitText] never returns, and throws once the array is
    full. *)
Lemma splitText_stuck (fuel : nat) (text : string) (c : Z) (w : World) :
  managerInitialized w = true ->
  Embeddings.chunkSize (embeddings (config w)) = Int c ->
  c <= 0 -> text <> "" ->
  LangChainCore.splitText fuel text w
  = if max_array_length <? Z.of_nat fuel
    then Throw "Invalid array length" (overflowed w) else Unfinished.
Proof.
  intros Hinit Hsize Hc Htext.
  rewrite splitText_served, Hsize by exact Hinit.
  rewrite chunk_loop_stuck
    by first [assumption | lia | cbn [length]; unfold max_array_length; lia].
  cbn [length]. rewrite Z.sub_0_r.
  destruct (max_array_length <? Z.of_nat fuel); reflexivity.
Qed.

Lemma lookup_map_seq {A : Type} (f : nat -> A) (k n j : nat) (x : A) :
  map f (seq k n) !! j = Some x -> (j < n)%nat /\ x = f (k + j)%nat.
Proof.
  revert k j. induction n as [| n IH]; intros k j H; [discriminate |].
  destruct j as [| j]; cbn in H.
  - injection H as <-. split; [lia | f_equal; lia].
  - apply IH in H as [Hj ->]. split; [lia | f_equal; lia].
Qed.

(** The least number of blocks that cover the text, as a quotient. *)
Lemma block_count (len c : Z) (n : nat) :
  1 <= c -> 0 <= len ->
  len <= Z.of_nat n * c ->
  n = 0%nat \/ (Z.of_nat n - 1) * c < len ->
  Z.of_nat n = (len + c - 1) / c.
Proof.
  intros Hc Hlen Hup Hlow.
  apply (Z.div_unique_pos _ _ _ (len + c - 1 - c * Z.of_nat n)); nia.
Qed.

(** C5, as amended.  For every text and every configured chunk size that
    is an integer of at least one, provided the text takes no more chunks
    than an array holds (2^32 - 1; so it is for every text shorter than
    2^32 characters), [splitText(text)], once the manager is initialized,
    returns the blocks of the text in order: the [j]-th chunk is the
    characters at the positions from [j * chunkSize] up to, and without,
    [(j + 1) * chunkSize], cut at the end of the text, so every chunk but
    the last has exactly [chunkSize] characters and no position falls in two
    chunks; there are as many chunks as it takes to cover the text; and the
    configured chunk overlap has no effect on the chunks. *)
Theorem splitText_blocks (text : string) (c : Z) (fuel : nat) (w : World) :
  managerInitialized w = true ->
  Embeddings.chunkSize (embeddings (config w)) = Int c ->
  1 <= c ->
  Z.of_nat (String.length text) <= max_array_length * c ->
  (String.length text < fuel)%nat ->
  exists chunks w',
    LangChainCore.splitText fuel text w = Return chunks w'
    /\ Z.of_nat (length chunks) = (Z.of_nat (String.length text) + c - 1) / c
    /\ (forall (j : nat) (chunk : string),
          chunks !! j = Some chunk ->
          chunk = substring (j * Z.to_nat c) (Z.to_nat c) text
          /\ Z.of_nat j * c < Z.of_nat (String.length text)
          /\ Z.of_nat (String.length chunk)
             = Z.min c (Z.of_nat (String.length text) - Z.of_nat j * c)
          /\ ((S j < length chunks)%nat -> Z.of_nat (String.length chunk) = c))
    /\ (forall overlap : number,
          exists w'',
            LangChainCore.splitText fuel text (set_chunkOverlap overlap w)
            = Return chunks w'').
Proof.
  intros Hinit Hsize Hc Hroom Hfuel.
  destruct (chunk_loop_positive text c Hc fuel Hroom Hfuel) as (n & Hrun & Hup & Hlow).
  eexists. eexists.
  split; [rewrite splitText_served, Hsize, Hrun by exact Hinit; reflexivity |].
  rewrite length_map, length_seq.
  split; [apply block_count; auto; lia |].
  split.
  - intros j chunk Hj. apply lookup_map_seq in Hj as [Hj ->]. cbn [Nat.add].
    assert (Hstart : Z.of_nat j * c < Z.of_nat (String.length text)) by nia.
    pose proof (length_block text c Hc j) as Hlen.
    repeat split; try assumption; try nia.
  - intros overlap. eexists.
    rewrite splitText_served by exact Hinit.
    cbn [set_chunkOverlap set_config config embeddings Embeddings.chunkSize].
    rewrite Hsize, Hrun. reflexivity.
Qed.

Lemma splitText_blocks_witness :
  exists w',
    LangChainCore.splitText 9 "abcdefgh" (after_initialize (sample_world "5"))
    = Return ["abcde"; "fgh"] w'.
Proof.
  destruct (splitText_blocks "abcdefgh" 5 9 (after_initialize (sample_world "5")))
    as (chunks & w' & Hrun & _).
  - reflexivity.
  - reflexivity.
  - lia.
  - unfold max_array_length. cbn. lia.
  - cbn. lia.
  - exists w'. rewrite Hrun. f_equal.
    vm_compute in Hrun. injection Hrun as <- _. reflexivity.
Defined.

(** C5, as stated, fails for a chunk size of 0 and for one that is not an
    integer.  With CHUNK_SIZE=0 and the text "a" the counter never
    advances: [splitText] returns no chunks, whatever the number of steps,
    and once the array is full it throws the RangeError of [push].  With
    the chunk size 1.5 written into the configuration, the text "abc"
    comes back as "a" and "bc": chunks of one and of two characters, the
    last one the longer. *)
Lemma splitText_zero_or_fractional_chunk_size :
  (managerInitialized (after_initialize (sample_world "0")) = true
   /\ Embeddings.chunkSize (embeddings (config (after_initialize (sample_world "0")))) = Int 0
   /\ (forall (fuel : nat) (chunks : list string) (w' : World),
         LangChainCore.splitText fuel "a" (after_initialize (sample_world "0"))
         <> Return chunks w')
   /\ (forall fuel : nat,
         max_array_length < Z.of_nat fuel ->
         LangChainCore.splitText fuel "a" (after_initialize (sample_world "0"))
         = Throw "Invalid array length" (overflowed (after_initialize (sample_world "0")))))
  /\ (exists w',
        LangChainCore.splitText 4 "abc"
          (set_chunkSize (Frac 3 1) (after_initialize (sample_world "5")))
        = Return ["a"; "bc"] w').
Proof.
  split.
  - split; [reflexivity |]. split; [reflexivity |].
    assert (Hrun : forall fuel : nat,
              LangChainCore.splitText fuel "a" (after_initialize (sample_world "0"))
              = if max_array_length <? Z.of_nat fuel
                then Throw "Invalid array length"
                       (overflowed (after_initialize (sample_world "0")))
                else Unfinished).
    { intros fuel. apply (splitText_stuck fuel "a" 0); [reflexivity | reflexivity | lia |].
      discriminate. }
    split.
    + intros fuel chunks w'. rewrite Hrun.
      destruct (max_array_length <? Z.of_nat fuel); discriminate.
    + intros fuel Hfuel. rewrite Hrun.
      destruct (Z.ltb_spec max_array_length (Z.of_nat fuel)); [reflexivity | lia].
  - eexists. rewrite splitText_served by reflexivity. reflexivity.
Qed.

(** C10, as amended.  With the manager initialized: for every text and
    every configured chunk size that is an integer of at least one,
    provided the text takes no more chunks than an array holds (2^32 - 1),
    [splitText(text)] returns as soon as the loop is given more steps than
    the text has characters; its chunks, put end to end with nothing
    between them, are the text; every chunk but the last has exactly
    [chunkSize] characters and the last has between one and [chunkSize];
    and for the empty text the result is the empty list.  For an integer
    chunk size of zero or less and a text that is not empty the loop never
    reaches its end: [splitText] returns no chunks, whatever the number of
    steps, and once the array is full (2^32 - 1 chunks pushed) it throws
    the RangeError "Invalid array length" of [push], logged by its
    [catch]. *)
Theorem splitText_lossless_partition (text : string) (w : World) :
  managerInitialized w = true ->
  (forall (c : Z) (fuel : nat),
     Embeddings.chunkSize (embeddings (config w)) = Int c ->
     1 <= c ->
     Z.of_nat (String.length text) <= max_array_length * c ->
     (String.length text < fuel)%nat ->
     exists chunks w',
       LangChainCore.splitText fuel text w = Return chunks w'
       /\ join "" chunks = text
       /\ (forall (j : nat) (chunk : string),
             chunks !! j = Some chunk -> (S j < length chunks)%nat ->
             Z.of_nat (String.length chunk) = c)
       /\ (forall (j : nat) (chunk : string),
             chunks !! j = Some chunk -> S j = length chunks ->
             1 <= Z.of_nat (String.length chunk) <= c)
       /\ (text = "" -> chunks = []))
  /\ (forall (c : Z) (fuel : nat),
        Embeddings.chunkSize (embeddings (config w)) = Int c ->
        c <= 0 ->
        text <> "" ->
        (forall (chunks : list string) (w' : World),
           LangChainCore.splitText fuel text w <> Return chunks w')
        /\ (max_array_length < Z.of_nat fuel ->
            LangChainCore.splitText fuel text w
            = Throw "Invalid array length" (overflowed w))).
Proof.
  intros Hinit. split.
  - intros c fuel Hsize Hc Hroom Hfuel.
    destruct (chunk_loop_positive text c Hc fuel Hroom Hfuel) as (n & Hrun & Hup & Hlow).
    eexists. eexists.
    split; [rewrite splitText_served, Hsize, Hrun by exact Hinit; reflexivity |].
    rewrite length_map, length_seq.
    split; [| split; [| split]].
    + rewrite join_blocks by exact Hc. apply substring_whole. nia.
    + intros j chunk Hj Hnext. apply lookup_map_seq in Hj as [Hj ->]. cbn [Nat.add].
      rewrite length_block by exact Hc. nia.
    + intros j chunk Hj Hlast. apply lookup_map_seq in Hj as [Hj ->]. cbn [Nat.add].
      rewrite length_block by exact Hc. nia.
    + intros ->. cbn [String.length] in Hlow.
      assert (n = 0%nat) as -> by nia. reflexivity.
  - intros c fuel Hsize Hc Htext.
    rewrite (splitText_stuck fuel text c w Hinit Hsize Hc Htext).
    destruct (Z.ltb_spec max_array_length (Z.of_nat fuel)).
    + split; [discriminate | reflexivity].
    + split; [discriminate | lia].
Qed.

Lemma splitText_lossless_partition_witness :
  (exists chunks w',
     LangChainCore.splitText 9 "abcdefgh" (after_initialize (sample_world "5"))
     = Return chunks w'
     /\ join "" chunks = "abcdefgh")
  /\ (forall (chunks : list string) (w' : World),
        LangChainCore.splitText 100 "abcdefgh" (after_initialize (sample_world "-3"))
        <> Return chunks w').
Proof.
  destruct (splitText_lossless_partition "abcdefgh" (after_initialize (sample_world "5")))
    as [Hpos _]; [reflexivity |].
  destruct (splitText_lossless_partition "abcdefgh" (after_initialize (sample_world "-3")))
    as [_ Hneg]; [reflexivity |].
  split.
  - destruct (Hpos 5 9%nat) as (chunks & w' & Hrun & Hjoin & _).
    + reflexivity.
    + lia.
    + unfold max_array_length. cbn. lia.
    + cbn. lia.
    + exists chunks, w'. split; assumption.
  - apply (Hneg (-3) 100%nat).
    + reflexivity.
    + lia.
    + discriminate.
Defined.

(** C10, as stated, fails for a chunk size that is NaN and for one that is
    not an integer.  With CHUNK_SIZE=abc the configured chunk size is NaN,
    which is not at least one, and [splitText("a")] returns all the same,
    with the single empty chunk: a chunk size of at least one is not
    needed for the loop to end.  With the chunk size 1.5 written into the
    configuration, which is at least one, [splitText("abc")] returns "a"
    and "bc": the first chunk, not the last, has one character. *)
Lemma splitText_nan_or_fractional_chunk_size :
  (Embeddings.chunkSize (embeddings (config (after_initialize (sample_world "abc")))) = NaN
   /\ (forall c : Z,
         Embeddings.chunkSize (embeddings (config (after_initialize (sample_world "abc"))))
         = Int c -> ~ 1 <= c)
   /\ exists w',
        LangChainCore.splitText 2 "a" (after_initialize (sample_world "abc"))
        = Return [""] w')
  /\ (num_lt (Frac 3 1) (Int 1) = false
      /\ exists w',
           LangChainCore.splitText 4 "abc"
             (set_chunkSize (Frac 3 1) (after_initialize (sample_world "5")))
           = Return ["a"; "bc"] w').
Proof.
  split.
  - split; [reflexivity |]. split; [intros c H; discriminate |].
    eexists. reflexivity.
  - split; [reflexivity |].
    eexists. rewrite splitText_served by reflexivity. reflexivity.
Qed.

(* ================================================================== *)
(** ** The initialized flag as a gate *)

Lemma accessor_refused (w : World) :
  managerInitialized w = false ->
  ModelManager.getChatModel w = Throw not_initialized w
  /\ ModelManager.getEmbeddings w = Throw not_initialized w
  /\ ModelManager.getTextSplitter w = Throw not_initialized w.
Proof.
  intros H.
  unfold ModelManager.getChatModel, ModelManager.getEmbeddings,
    ModelManager.getTextSplitter.
  run. rewrite H. run. auto.
Qed.

(** An initialized manager hands out the null placeholder. *)
Lemma accessor_served (w : World) :
  managerInitialized w = true ->
  ModelManager.getChatModel w
  = Return VNull (logged LogLevel.debug "Getting chat model instance" VUndefined w)
  /\ ModelManager.getEmbeddings w
     = Return VNull (logged LogLevel.debug "Getting embeddings instance" VUndefined w)
  /\ ModelManager.getTextSplitter w
     = Return VNull (logged LogLevel.debug "Getting text splitter instance" VUndefined w).
Proof.
  intros H.
  unfold ModelManager.getChatModel, ModelManager.getEmbeddings,
    ModelManager.getTextSplitter.
  run. rewrite H. run. auto.
Qed.

Lemma simpleChat_refused (message : string) (systemPrompt : option string) (w : World) :
  managerInitialized w = false ->
  LangChainCore.simpleChat message systemPrompt w =
  Throw not_initialized (refused "Executing simple chat..." "Error in simple chat" w).
Proof.
  intros H. unfold LangChainCore.simpleChat. run. rewrite H. run. reflexivity.
Qed.

(** The reply echoes the message; the system prompt is not looked at. *)
Lemma simpleChat_served (message : string) (systemPrompt : option string) (w : World) :
  managerInitialized w = true ->
  LangChainCore.simpleChat message systemPrompt w =
  Return ("Echo: " +:+ message)
    (served "Executing simple chat..." "Simple chat completed successfully" VUndefined w).
Proof.
  intros H. unfold LangChainCore.simpleChat. run. rewrite H. run. reflexivity.
Qed.

Lemma createPromptChain_refused (template : string) (w : World) :
  managerInitialized w = false ->
  LangChainCore.createPromptChain template w =
  Throw not_initialized
    (refused "Creating prompt chain..." "Error creating prompt chain" w).
Proof.
  intros H. unfold LangChainCore.createPromptChain. run. rewrite H. run. reflexivity.
Qed.

Lemma createPromptChain_served (template : string) (w : World) :
  managerInitialized w = true ->
  exists chain,
    LangChainCore.createPromptChain template w =
    Return chain
      (served "Creating prompt chain..." "Prompt chain created successfully" VUndefined w)
    /\ PromptChain.template chain = template.
Proof.
  intros H. unfold LangChainCore.createPromptChain. run. rewrite H. run.
  eexists. split; reflexivity.
Qed.

(** The error of the store passes through the [catch] of the caller, which
    logs it once more. *)
Lemma createRAGChain_refused (documents : list string) (w : World) :
  managerInitialized w = false ->
  LangChainCore.createRAGChain documents w =
  Throw not_initialized
    (logged LogLevel.error "Error creating RAG chain" (VError not_initialized)
       (refused "Creating vector store..." "Error creating vector store"
          (logged LogLevel.info "Creating RAG chain..." VUndefined w))).
Proof.
  intros H. unfold LangChainCore.createRAGChain. run.
  rewrite createVectorStore_refused by (rewrite logged_flag; exact H).
  run. reflexivity.
Qed.

Lemma similaritySearch_refused
  (query : string) (documents : list string) (k : option number) (w : World) :
  managerInitialized w = false ->
  LangChainCore.similaritySearch query documents k w =
  Throw not_initialized
    (logged LogLevel.error "Error in similarity search" (VError not_initialized)
       (refused "Creating vector store..." "Error creating vector store"
          (logged LogLevel.info "Performing similarity search..." VUndefined w))).
Proof.
  intros H. unfold LangChainCore.similaritySearch. run.
  rewrite createVectorStore_refused by (rewrite logged_flag; exact H).
  run. reflexivity.
Qed.

Lemma similaritySearch_served
  (query : string) (documents : list string) (k : option number) (w : World) :
  managerInitialized w = true ->
  exists w',
    LangChainCore.similaritySearch query documents k w =
    Return (LangChainCore.search documents query (Some (default (Int 4) k))) w'.
Proof.
  intros H. unfold LangChainCore.similaritySearch. run.
  rewrite createVectorStore_served by (rewrite logged_flag; exact H).
  run. eexists. reflexivity.
Qed.

Lemma getEmbeddings_refused (text : string) (w : World) :
  managerInitialized w = false ->
  LangChainCore.getEmbeddings text w =
  Throw not_initialized
    (refused "Getting embeddings for text..." "Error getting embeddings" w).
Proof.
  intros H. unfold LangChainCore.getEmbeddings. run. rewrite H. run. reflexivity.
Qed.

Lemma random_vector_run (n : nat) (w : World) :
  exists xs w',
    LangChainCore.random_vector n w = Return xs w'
    /\ length xs = n
    /\ managerInitialized w' = managerInitialized w
    /\ config w' = config w.
Proof.
  revert w. induction n as [| n IH]; intros w.
  - exists [], w. repeat split.
  - cbn [LangChainCore.random_vector]. unfold LangChainCore.random. run.
    destruct (IH (set_draws (S (draws w)) w)) as (xs & w' & Hrun & Hlen & Hflag & Hcfg).
    rewrite Hrun. exists (Random (draws w) :: xs), w'.
    cbn [length]. rewrite Hlen. auto.
Qed.

Lemma getEmbeddings_served (text : string) (w : World) :
  managerInitialized w = true ->
  exists xs w',
    LangChainCore.getEmbeddings text w = Return xs w' /\ length xs = 1536%nat.
Proof.
  intros H. unfold LangChainCore.getEmbeddings. run. rewrite H. run.
  destruct (random_vector_run 1536
              (logged LogLevel.info "Getting embeddings for text..." VUndefined w))
    as (xs & w' & Hrun & Hlen & _).
  rewrite Hrun. run. eauto.
Qed.

(** With a chunk size that is an integer or NaN, [splitText] returns
    exactly when its loop ends with its chunks. *)
Lemma splitText_returns_iff (text : string) (w : World) :
  managerInitialized w = true ->
  whole (Embeddings.chunkSize (embeddings (config w))) ->
  (exists fuel chunks w', LangChainCore.splitText fuel text w = Return chunks w')
  <-> loop_ends (Embeddings.chunkSize (embeddings (config w))) text.
Proof.
  intros Hinit Hwhole. unfold loop_ends. split.
  - intros (fuel & chunks & w' & Hrun).
    destruct Hwhole as [Hnan | (z & Hz)]; [auto |].
    destruct text as [| a text]; [auto |].
    right. right. exists z. split; [exact Hz |].
    destruct (Z.le_gt_cases 1 z) as [Hpos | Hneg].
    + split; [exact Hpos |].
      destruct (Z.le_gt_cases (Z.of_nat (String.length (String a text)))
                  (max_array_length * z)) as [Hroom | Hlong]; [exact Hroom |].
      rewrite splitText_served, Hz in Hrun by exact Hinit.
      change (Int 0) with (Int (Z.of_nat 0 * z)) in Hrun.
      rewrite (chunk_loop_overflow (String a text) z Hpos fuel 0 [] eq_refl) in Hrun
        by (unfold max_array_length; cbn; lia || exact Hlong).
      destruct (_ <? _) in Hrun; discriminate.
    + rewrite (splitText_stuck fuel (String a text) z w Hinit Hz) in Hrun
        by (lia || discriminate).
      destruct (_ <? _) in Hrun; discriminate.
  - intros H.
    destruct text as [| a text].
    { exists 1%nat. rewrite splitText_served by exact Hinit.
      rewrite chunk_loop_empty. eauto. }
    destruct H as [H | [H | (z & H & Hz & Hroom)]]; [discriminate | |].
    + exists 2%nat. rewrite splitText_served, H by exact Hinit.
      rewrite chunk_loop_nan by discriminate. eauto.
    + destruct (chunk_loop_positive (String a text) z Hz
                  (S (String.length (String a text))) Hroom)
        as (n & Hrun & _); [lia |].
      exists (S (String.length (String a text))).
      rewrite splitText_served, H, Hrun by exact Hinit. eauto.
Qed.

(** And when the loop does not end with its chunks, [splitText] throws the
    RangeError of a full array, once given the steps to fill it. *)
Lemma splitText_overflows (fuel : nat) (text : string) (w : World) :
  managerInitialized w = true ->
  whole (Embeddings.chunkSize (embeddings (config w))) ->
  ~ loop_ends (Embeddings.chunkSize (embeddings (config w))) text ->
  max_array_length < Z.of_nat fuel ->
  LangChainCore.splitText fuel text w = Throw "Invalid array length" (overflowed w).
Proof.
  intros Hinit Hwhole Hnot Hfuel. unfold loop_ends in Hnot.
  destruct Hwhole as [Hnan | (z & Hz)]; [tauto |].
  assert (Htext : text <> "") by tauto.
  destruct (Z.le_gt_cases 1 z) as [Hpos | Hneg].
  - assert (Hlong : max_array_length * z < Z.of_nat (String.length text)).
    { destruct (Z.le_gt_cases (Z.of_nat (String.length text)) (max_array_length * z));
        [| assumption].
      contradiction Hnot. right. right. eauto. }
    rewrite splitText_served, Hz by exact Hinit.
    change (Int 0) with (Int (Z.of_nat 0 * z)).
    rewrite (chunk_loop_overflow text z Hpos fuel 0 [] eq_refl)
      by (unfold max_array_length; cbn; lia || exact Hlong).
    destruct (Z.ltb_spec (max_array_length - Z.of_nat 0) (Z.of_nat fuel)); [| lia].
    reflexivity.
  - rewrite (splitText_stuck fuel text z w Hinit Hz) by (lia || assumption).
    destruct (Z.ltb_spec max_array_length (Z.of_nat fuel)); [reflexivity | lia].
Qed.

Lemma initialize_returns_initialized (w0 w : World) :
  ModelManager.initialize w0 = Return tt w -> managerInitialized w = true.
Proof.
  intros H. destruct (initialize_succeeds w0) as (w' & Hrun & Hflag & _).
  rewrite Hrun in H. injection H as <-. exact Hflag.
Qed.

(** C1, as amended.  Every accessor of the model manager ([getChatModel],
    [getEmbeddings], [getTextSplitter]) and every operation of the core
    ([simpleChat], [createPromptChain], [createVectorStore],
    [createRAGChain], [similaritySearch], [getEmbeddings], [splitText]),
    called while the initialized flag of the model manager is false, throws
    the error "ModelManager must be initialized before use" and leaves the
    flag false; [initialize()] returns from every state, and called after
    it has returned, the call returns, with one exception: [splitText],
    for a configured chunk size that is an integer or NaN, returns exactly
    when the text is empty, or the chunk size is NaN, or it is at least one
    and the text takes no more chunks than an array holds (2^32 - 1);
    otherwise it throws the RangeError "Invalid array length" of [push]
    once the array is full. *)
Theorem initialization_gates_every_call (c : call) (w0 : World) :
  (managerInitialized w0 = false ->
   forall fuel : nat,
   exists w',
     invoke fuel c w0 = Throw "ModelManager must be initialized before use" w'
     /\ managerInitialized w' = false)
  /\ (exists w : World, ModelManager.initialize w0 = Return tt w)
  /\ (forall w : World,
        ModelManager.initialize w0 = Return tt w ->
        in_scope c w ->
        ((exists fuel a w', invoke fuel c w = Return a w') <-> runnable c w)
        /\ (~ runnable c w ->
            forall fuel : nat,
            max_array_length < Z.of_nat fuel ->
            exists w', invoke fuel c w = Throw "Invalid array length" w')).
Proof.
  split; [| split].
  - intros H fuel.
    destruct c; cbn [invoke answer]; eexists;
      (split;
       [ first
           [ apply (proj1 (accessor_refused w0 H))
           | apply (proj1 (proj2 (accessor_refused w0 H)))
           | apply (proj2 (proj2 (accessor_refused w0 H)))
           | apply simpleChat_refused, H
           | apply createPromptChain_refused, H
           | apply createVectorStore_refused, H
           | apply createRAGChain_refused, H
           | apply similaritySearch_refused, H
           | apply getEmbeddings_refused, H
           | apply splitText_refused, H ]
       | unfold refused; rewrite ?logged_flag; exact H ]).
  - destruct (initialize_succeeds w0) as (w & Hrun & _). eauto.
  - intros w Hrun Hscope. apply initialize_returns_initialized in Hrun as Hinit.
    destruct c; cbn [invoke answer runnable in_scope] in *;
      try (split; [split; [intros _; exact I | intros _; exists 0%nat]
                  | intros Hnot; contradiction Hnot; exact I]).
    + destruct (accessor_served w Hinit) as (-> & _ & _). eauto.
    + destruct (accessor_served w Hinit) as (_ & -> & _). eauto.
    + destruct (accessor_served w Hinit) as (_ & _ & ->). eauto.
    + rewrite simpleChat_served by exact Hinit. eauto.
    + destruct (createPromptChain_served template w Hinit) as (chain & -> & _). eauto.
    + rewrite createVectorStore_served by exact Hinit. eauto.
    + rewrite createRAGChain_served by exact Hinit. eauto.
    + destruct (similaritySearch_served query documents k w Hinit) as (w' & ->). eauto.
    + destruct (getEmbeddings_served text w Hinit) as (xs & w' & -> & _). eauto.
    + split; [apply splitText_returns_iff; assumption |].
      intros Hnot fuel Hfuel. eexists.
      apply splitText_overflows; assumption.
Qed.

Lemma initialization_gates_every_call_witness :
  (exists w',
     invoke 0 (SimpleChat "hello" (Some "ignored system prompt")) (sample_world "5")
     = Throw "ModelManager must be initialized before use" w')
  /\ (exists fuel chunks w',
        invoke fuel (SplitText "abcdefgh") (after_initialize (sample_world "5"))
        = Return chunks w').
Proof.
  split.
  - destruct (initialization_gates_every_call
                (SimpleChat "hello" (Some "ignored system prompt")) (sample_world "5"))
      as (Hfail & _ & _).
    destruct (Hfail eq_refl 0%nat) as (w' & Hrun & _). eauto.
  - destruct (initialization_gates_every_call (SplitText "abcdefgh") (sample_world "5"))
      as (_ & _ & Hok).
    destruct (Hok (after_initialize (sample_world "5"))) as [Hiff _].
    + reflexivity.
    + right. exists 5. reflexivity.
    + apply Hiff. right. right. exists 5.
      split; [reflexivity |]. split; [lia |]. unfold max_array_length. cbn. lia.
Defined.

(** C1, as stated, fails for [splitText]: with CHUNK_SIZE=-1 and the
    manager initialized by [initialize()], [splitText("hello")] does not
    return, whatever the number of steps; the counter never reaches the
    length of the text, and once the array is full the call throws the
    RangeError of [push]. *)
Lemma splitText_after_initialize_throws :
  ModelManager.initialize (sample_world "-1") = Return tt (after_initialize (sample_world "-1"))
  /\ (forall (fuel : nat) (chunks : list string) (w' : World),
        invoke fuel (SplitText "hello") (after_initialize (sample_world "-1"))
        <> Return chunks w')
  /\ (forall fuel : nat,
        max_array_length < Z.of_nat fuel ->
        invoke fuel (SplitText "hello") (after_initialize (sample_world "-1"))
        = Throw "Invalid array length" (overflowed (after_initialize (sample_world "-1")))).
Proof.
  split; [reflexivity |].
  assert (Hrun : forall fuel : nat,
            LangChainCore.splitText fuel "hello" (after_initialize (sample_world "-1"))
            = if max_array_length <? Z.of_nat fuel
              then Throw "Invalid array length"
                     (overflowed (after_initialize (sample_world "-1")))
              else Unfinished).
  { intros fuel. apply (splitText_stuck fuel "hello" (-1)); [reflexivity | reflexivity | lia |].
    discriminate. }
  cbn [invoke]. split.
  - intros fuel chunks w'. rewrite Hrun.
    destruct (max_array_length <? Z.of_nat fuel); discriminate.
  - intros fuel Hfuel. rewrite Hrun.
    destruct (Z.ltb_spec max_array_length (Z.of_nat fuel)); [reflexivity | lia].
Qed.

(* ================================================================== *)
(** ** The application facade *)

Lemma on_world_return {A : Type} (m : M World A) (this : LangChainStarter.t) (a : A) (w : World) :
  m (LangChainStarter.world this) = Return a w ->
  LangChainStarter.on_world m this =
  Return a {| LangChainStarter.world := w;
              LangChainStarter.initialized := LangChainStarter.initialized this |}.
Proof. intros H. unfold LangChainStarter.on_world. rewrite H. reflexivity. Qed.

(** The connection test of the model manager itself always reports
    success. *)
Lemma testConnection_true (w : World) :
  exists w', ModelManager.testConnection w = Return true w'.
Proof. unfold ModelManager.testConnection. run. eauto. Qed.

(** C6.  When the facade is not yet initialized and the [testConnection()]
    that its [initialize()] calls on the model manager returns false,
    [initialize()] throws the error "Failed to establish connection with
    models", the initialized flag of the facade is still false afterwards,
    and [getCore()] then throws the error "LangChain starter must be
    initialized before use". *)
Theorem facade_initialize_fails_without_connection
  (testConnection : M World bool) (this : LangChainStarter.t) (w1 w2 : World) :
  LangChainStarter.initialized this = false ->
  ModelManager.initialize
    (logged LogLevel.info "Initializing LangChain starter..." VUndefined
       (LangChainStarter.world this)) = Return tt w1 ->
  testConnection w1 = Return false w2 ->
  exists this',
    LangChainStarter.initialize_with testConnection this
    = Throw "Failed to establish connection with models" this'
    /\ LangChainStarter.initialized this' = false
    /\ LangChainStarter.isInitialized this' = Return false this'
    /\ LangChainStarter.getCore this'
       = Throw "LangChain starter must be initialized before use" this'.
Proof.
  intros Hflag Hinit Htest.
  unfold LangChainStarter.initialize_with.
  unfold bind at 1. unfold get at 1. rewrite Hflag.
  unfold try_catch, bind.
  rewrite (on_world_return _ this tt _ (info_run _ _ _)).
  rewrite (on_world_return _ _ tt w1) by exact Hinit.
  rewrite (on_world_return _ _ false w2) by exact Htest.
  cbn [negb]. unfold throw at 1.
  rewrite (on_world_return _ _ tt _ (error_run _ _ _)).
  unfold throw. eexists. split; [reflexivity |].
  cbn [LangChainStarter.initialized]. rewrite Hflag.
  split; [reflexivity |]. split; [unfold LangChainStarter.isInitialized, bind, get, ret;
                                  cbn [LangChainStarter.initialized]; reflexivity |].
  unfold LangChainStarter.getCore, bind, get, throw.
  cbn [LangChainStarter.initialized]. reflexivity.
Qed.

Lemma facade_initialize_fails_without_connection_witness :
  exists this',
    LangChainStarter.initialize_with (ret false)
      {| LangChainStarter.world := sample_world "5";
         LangChainStarter.initialized := false |}
    = Throw "Failed to establish connection with models" this'
    /\ LangChainStarter.initialized this' = false
    /\ LangChainStarter.getCore this'
       = Throw "LangChain starter must be initialized before use" this'.
Proof.
  destruct (facade_initialize_fails_without_connection (ret false)
              {| LangChainStarter.world := sample_world "5";
                 LangChainStarter.initialized := false |}
              (after_initialize
                 (logged LogLevel.info "Initializing LangChain starter..." VUndefined
                    (sample_world "5")))
              (after_initialize
                 (logged LogLevel.info "Initializing LangChain starter..." VUndefined
                    (sample_world "5"))))
    as (this' & Hrun & Hflag & _ & Hcore).
  - reflexivity.
  - reflexivity.
  - reflexivity.
  - exists this'. auto.
Defined.

(* ================================================================== *)
(** ** Further properties: the configuration manager *)

Lemma key_absent_false_iff (c : LangChainConfig) :
  ConfigManager.key_absent c = false <-> usable_key c.
Proof.
  unfold ConfigManager.key_absent, usable_key.
  destruct (OpenAI.apiKey (openai c)) as [k |].
  - destruct (String.eqb_spec k "") as [-> | Hk].
    + split; [discriminate | intros (k & Hk & Hne); congruence].
    + split; [eauto | reflexivity].
  - split; [discriminate | intros (k & Hk & _); discriminate].
Qed.

(** X1.  [getInstance()] builds the instance once: after a call that
    returned, every later call returns that same instance and leaves the
    slot alone, whatever the environment has become, even if the key is
    now missing from it. *)
Theorem getInstance_is_singleton
  (e e' : gmap string string) (i : ConfigManager.t) (slot : option ConfigManager.t) :
  ConfigManager.getInstance e None = Return i slot ->
  ConfigManager.getInstance e' slot = Return i slot
  /\ ConfigManager.config i = ConfigManager.loadConfig e
  /\ usable_key (ConfigManager.config i).
Proof.
  unfold ConfigManager.getInstance. rewrite new_run.
  destruct (String.eqb_spec (resolved_key e) "") as [Hk | Hk]; [discriminate |].
  intros H. injection H as <- <-. repeat split.
  exists (resolved_key e). split; [reflexivity | exact Hk].
Qed.

Lemma getInstance_is_singleton_witness :
  exists i slot,
    ConfigManager.getInstance (sample_env "5") None = Return i slot
    /\ ConfigManager.getInstance ∅ slot = Return i slot.
Proof.
  exists {| ConfigManager.config := ConfigManager.loadConfig (sample_env "5") |}.
  exists (Some {| ConfigManager.config := ConfigManager.loadConfig (sample_env "5") |}).
  split; [reflexivity |].
  apply (getInstance_is_singleton (sample_env "5") ∅ _ _ eq_refl).
Defined.

(** X2.  A construction that failed is not remembered: the slot is still
    empty, so the next [getInstance()] reads the environment again, and
    returns an instance as soon as the key is there. *)
Theorem getInstance_retries_after_failure
  (e e' : gmap string string) (msg : string) (slot : option ConfigManager.t) :
  ConfigManager.getInstance e None = Throw msg slot ->
  resolved_key e' <> "" ->
  slot = None
  /\ ConfigManager.getInstance e' slot
     = Return {| ConfigManager.config := ConfigManager.loadConfig e' |}
              (Some {| ConfigManager.config := ConfigManager.loadConfig e' |}).
Proof.
  unfold ConfigManager.getInstance. rewrite !new_run.
  destruct (String.eqb_spec (resolved_key e) "") as [Hk | Hk]; [| discriminate].
  intros H Hk'. injection H as _ <-. split; [reflexivity |].
  destruct (String.eqb_spec (resolved_key e') "") as [H | _]; [contradiction |].
  reflexivity.
Qed.

Lemma getInstance_retries_after_failure_witness :
  exists i,
    ConfigManager.getInstance (sample_env "5") None = Return i (Some i).
Proof.
  destruct (getInstance_retries_after_failure ∅ (sample_env "5")
              "OPENAI_API_KEY environment variable is required" None)
    as [_ H].
  - reflexivity.
  - vm_compute. discriminate.
  - eexists. exact H.
Defined.

(** X3.  [updateConfig] returns exactly when the merged record holds a key
    that is not empty, and then the stored configuration is the merge: a
    call that returned leaves a usable key behind. *)
Theorem updateConfig_returns_iff_key
  (p : ConfigManager.partial) (this : ConfigManager.t) :
  ((exists this', ConfigManager.updateConfig p this = Return tt this')
   <-> usable_key (ConfigManager.spread (ConfigManager.config this) p))
  /\ (forall this',
        ConfigManager.updateConfig p this = Return tt this' ->
        ConfigManager.config this' = ConfigManager.spread (ConfigManager.config this) p
        /\ usable_key (ConfigManager.config this')).
Proof.
  rewrite updateConfig_run. cbv zeta. cbn [ConfigManager.config].
  rewrite <- key_absent_false_iff.
  destruct (ConfigManager.key_absent _) eqn:Habs.
  - split; [split; [intros (this' & H); discriminate | discriminate] |].
    intros this' H. discriminate.
  - split; [split; [reflexivity | eauto] |].
    intros this' H. injection H as <-. cbn [ConfigManager.config].
    split; [reflexivity | apply key_absent_false_iff, Habs].
Qed.

(** X4.  An update whose partial has no [openai] key, and a section under
    each key it has, cannot fail on a configuration that has a key: it
    returns, the [openai] section, key included, is the one from before,
    and each of the other two sections is the one the partial has under
    its key, or the one from before when the partial has no such key. *)
Theorem updateConfig_without_openai
  (p : ConfigManager.partial) (this : ConfigManager.t) :
  usable_key (ConfigManager.config this) ->
  ConfigManager.p_openai p = None ->
  exists this',
    ConfigManager.updateConfig p this = Return tt this'
    /\ openai (ConfigManager.config this') = openai (ConfigManager.config this)
    /\ embeddings (ConfigManager.config this')
       = default (embeddings (ConfigManager.config this)) (ConfigManager.p_embeddings p)
    /\ logging (ConfigManager.config this')
       = default (logging (ConfigManager.config this)) (ConfigManager.p_logging p).
Proof.
  intros Hkey Hp. rewrite updateConfig_run. cbv zeta. cbn [ConfigManager.config].
  apply key_absent_false_iff in Hkey.
  assert (Habs : ConfigManager.key_absent
                   (ConfigManager.spread (ConfigManager.config this) p) = false).
  { unfold ConfigManager.key_absent, ConfigManager.spread in *.
    cbn [openai]. rewrite Hp. exact Hkey. }
  rewrite Habs. eexists. split; [reflexivity |].
  unfold ConfigManager.spread. cbn [ConfigManager.config openai embeddings logging].
  rewrite Hp. repeat split.
Qed.

Lemma updateConfig_without_openai_witness :
  exists this',
    ConfigManager.updateConfig embeddings_update
      {| ConfigManager.config := ConfigManager.loadConfig (sample_env "5") |}
    = Return tt this'
    /\ OpenAI.apiKey (openai (ConfigManager.config this')) = Some "sk-test"
    /\ Embeddings.chunkSize (embeddings (ConfigManager.config this')) = Int 64.
Proof.
  destruct (updateConfig_without_openai embeddings_update
              {| ConfigManager.config := ConfigManager.loadConfig (sample_env "5") |})
    as (this' & Hrun & Hopenai & Hemb & _).
  - exists "sk-test". split; [reflexivity | discriminate].
  - reflexivity.
  - exists this'. split; [exact Hrun |].
    rewrite Hopenai, Hemb. split; reflexivity.
Defined.

(** X5.  A singleton that a failed update left without a key is repaired
    by the updates that bring an [openai] section with a key that is not
    empty, and by no others: of the updates whose partial has a section
    under each key it has, [updateConfig] returns exactly for those. *)
Theorem updateConfig_repairs_only_with_key
  (q : ConfigManager.partial) (this : ConfigManager.t) :
  ConfigManager.key_absent (ConfigManager.config this) = true ->
  (exists this', ConfigManager.updateConfig q this = Return tt this')
  <-> exists (o : OpenAI.t) (k : string),
        ConfigManager.p_openai q = Some o /\ OpenAI.apiKey o = Some k /\ k <> "".
Proof.
  intros Hbad.
  assert (Hiff : ConfigManager.key_absent
                   (ConfigManager.spread (ConfigManager.config this) q) = false
                 <-> exists (o : OpenAI.t) (k : string),
                       ConfigManager.p_openai q = Some o
                       /\ OpenAI.apiKey o = Some k /\ k <> "").
  { rewrite key_absent_false_iff. unfold usable_key, ConfigManager.spread.
    cbn [openai]. destruct (ConfigManager.p_openai q) as [o |]; cbn [from_option id].
    - split.
      + intros (k & Hk & Hne). eauto.
      + intros (o' & k & Ho & Hk & Hne). injection Ho as <-. eauto.
    - split.
      + intros Hkey. apply key_absent_false_iff in Hkey. congruence.
      + intros (o' & k & Ho & _). discriminate. }
  rewrite updateConfig_run. cbv zeta. cbn [ConfigManager.config].
  rewrite <- Hiff.
  destruct (ConfigManager.key_absent
              (ConfigManager.spread (ConfigManager.config this) q)).
  - split; [intros (this' & H); discriminate | discriminate].
  - split; [reflexivity | eauto].
Qed.

Lemma updateConfig_repairs_only_with_key_witness :
  exists broken repaired,
    ConfigManager.updateConfig keyless_update
      {| ConfigManager.config := ConfigManager.loadConfig (sample_env "5") |}
    = Throw "OPENAI_API_KEY environment variable is required" broken
    /\ ConfigManager.updateConfig keyed_update broken = Return tt repaired.
Proof.
  exists {| ConfigManager.config :=
              ConfigManager.spread (ConfigManager.loadConfig (sample_env "5"))
                                   keyless_update |}.
  destruct (updateConfig_repairs_only_with_key keyed_update
              {| ConfigManager.config :=
                   ConfigManager.spread (ConfigManager.loadConfig (sample_env "5"))
                                        keyless_update |} eq_refl)
    as [_ Hrepair].
  destruct Hrepair as (repaired & Hrun).
  - eexists. exists "sk-other". repeat split. discriminate.
  - exists repaired. split; [reflexivity | exact Hrun].
Defined.

(** X6.  Applying the same update a second time changes nothing: the
    second call ends as the first did and stores the same configuration. *)
Theorem updateConfig_twice (p : ConfigManager.partial) (this : ConfigManager.t) :
  match ConfigManager.updateConfig p this with
  | Return _ this' => ConfigManager.updateConfig p this' = Return tt this'
  | Throw msg this' => ConfigManager.updateConfig p this' = Throw msg this'
  | Unfinished => False
  end.
Proof.
  assert (Hspread : forall c,
            ConfigManager.spread (ConfigManager.spread c p) p = ConfigManager.spread c p).
  { intros c. unfold ConfigManager.spread. cbn [openai embeddings logging].
    destruct (ConfigManager.p_openai p), (ConfigManager.p_embeddings p),
      (ConfigManager.p_logging p); reflexivity. }
  rewrite updateConfig_run. cbv zeta. cbn [ConfigManager.config].
  destruct (ConfigManager.key_absent _) eqn:Habs;
    rewrite updateConfig_run; cbv zeta; cbn [ConfigManager.config];
    rewrite Hspread, Habs; reflexivity.
Qed.

(** X7.  [loadConfig] switches console logging off for the exact text
    "false" only, and takes LOG_LEVEL as it is given, whether or not it
    names a level. *)
Theorem loadConfig_logging (e : gmap string string) :
  (Logging.enableConsole (logging (ConfigManager.loadConfig e)) = false
   <-> e !! "ENABLE_CONSOLE_LOGGING" = Some "false")
  /\ (forall v : string,
        e !! "LOG_LEVEL" = Some v -> v <> "" ->
        Logging.level (logging (ConfigManager.loadConfig e)) = v).
Proof.
  cbn [ConfigManager.loadConfig logging Logging.enableConsole Logging.level].
  split.
  - destruct (e !! "ENABLE_CONSOLE_LOGGING") as [v |].
    + destruct (String.eqb_spec v "false") as [-> | Hv]; cbn [negb].
      * split; reflexivity.
      * split; [discriminate | intros H; injection H as ->; contradiction].
    + split; discriminate.
  - intros v Hv Hne. rewrite Hv. unfold or_default.
    destruct (String.eqb_spec v "") as [-> | _]; [contradiction | reflexivity].
Qed.

(* ================================================================== *)
(** ** Further properties: the logger *)

Lemma indexOf_lower_bound (l : list string) (x : string) : -1 <= indexOf l x.
Proof.
  induction l as [| y l IH]; cbn [indexOf]; [lia |].
  destruct (String.eqb y x); [lia |].
  destruct (Z.ltb_spec (indexOf l x) 0); lia.
Qed.

Lemma indexOf_absent (l : list string) (x : string) :
  ~ In x l -> indexOf l x = -1.
Proof.
  induction l as [| y l IH]; intros Hin; cbn [indexOf]; [reflexivity |].
  destruct (String.eqb_spec y x) as [-> | _].
  - contradiction Hin. left. reflexivity.
  - rewrite IH by (intros H; apply Hin; right; exact H). reflexivity.
Qed.

(** X8.  A threshold that is none of the four levels filters nothing: with
    the console enabled, a logger call of every severity appends its
    line. *)
Theorem unknown_threshold_logs_everything
  (severity : LogLevel.t) (message : string) (data : jsval) (w : World) :
  ~ In (Logging.level (logging (config w))) Logger.levels ->
  Logging.enableConsole (logging (config w)) = true ->
  exists w',
    Logger.at_level severity message data w = Return tt w'
    /\ events w' = events w ++ [log_event w severity message data].
Proof.
  intros Hlevel Henable. exists (logged severity message data w).
  split; [apply at_level_run |].
  rewrite logged_events. unfold passes.
  rewrite (indexOf_absent _ _ Hlevel), Henable.
  pose proof (indexOf_lower_bound Logger.levels (LogLevel.name severity)) as Hlow.
  destruct (Z.geb_spec (indexOf Logger.levels (LogLevel.name severity)) (-1)); [| lia].
  reflexivity.
Qed.

Lemma unknown_threshold_logs_everything_witness :
  exists w',
    Logger.debug "cache miss" VUndefined verbose_world = Return tt w'
    /\ events w' =
       [ConsoleLog "[2024-01-01T00:00:00.000Z] [DEBUG] cache miss" None].
Proof.
  destruct (unknown_threshold_logs_everything LogLevel.debug "cache miss" VUndefined
              verbose_world) as (w' & Hrun & Hevents).
  - vm_compute. intros [H | [H | [H | [H | []]]]]; discriminate.
  - reflexivity.
  - exists w'. split; [exact Hrun | exact Hevents].
Defined.

(** X9.  A payload that is falsy (undefined, null, false, 0, NaN, the
    empty string) is not printed: the call does what the call without a
    payload does. *)
Theorem falsy_payload_is_dropped
  (severity : LogLevel.t) (message : string) (data : jsval) (w : World) :
  truthy data = false ->
  Logger.at_level severity message data w
  = Logger.at_level severity message VUndefined w.
Proof.
  intros H. rewrite !at_level_run. unfold logged, log_event.
  rewrite H. reflexivity.
Qed.

Lemma falsy_payload_is_dropped_witness :
  Logger.info "retries left" (VNum (Int 0)) (sample_world "5")
  = Logger.info "retries left" VUndefined (sample_world "5").
Proof.
  apply (falsy_payload_is_dropped LogLevel.info "retries left" (VNum (Int 0))
           (sample_world "5")).
  reflexivity.
Defined.

Lemma setLogLevel_run (level : LogLevel.t) (w : World) :
  exists w',
    Logger.setLogLevel level w = Return tt w'
    /\ Logging.level (logging (config w')) = LogLevel.name level
    /\ Logging.enableConsole (logging (config w'))
       = Logging.enableConsole (logging (config w))
    /\ openai (config w') = openai (config w)
    /\ embeddings (config w') = embeddings (config w)
    /\ events w' = events w
    /\ now w' = now w
    /\ managerInitialized w' = managerInitialized w.
Proof. eexists. split; [reflexivity |]. repeat split. Qed.

(** X10.  [setLogLevel(level)] writes the threshold into the shared
    configuration object, so the model manager reads it back from
    [getConfig()], and from then on a logger call appends its line exactly
    when the console is enabled and the severity ranks at least [level],
    whatever the threshold was before; the other settings are untouched. *)
Theorem setLogLevel_takes_effect
  (level severity : LogLevel.t) (message : string) (data : jsval) (w : World) :
  exists w1 w2 c,
    Logger.setLogLevel level w = Return tt w1
    /\ ModelManager.getConfig w1 = Return c w1
    /\ Logging.level (logging c) = LogLevel.name level
    /\ openai c = openai (config w)
    /\ embeddings c = embeddings (config w)
    /\ Logger.at_level severity message data w1 = Return tt w2
    /\ events w2 =
       events w ++
       (if (rank level <=? rank severity)%nat
           && Logging.enableConsole (logging (config w))
        then [log_event w severity message data] else []).
Proof.
  destruct (setLogLevel_run level w)
    as (w1 & Hset & Hlevel & Henable & Hopenai & Hemb & Hevents & Hnow & _).
  exists w1, (logged severity message data w1), (config w1).
  split; [exact Hset |]. split; [reflexivity |].
  split; [exact Hlevel |]. split; [exact Hopenai |]. split; [exact Hemb |].
  split; [apply at_level_run |].
  rewrite logged_events, (passes_rank _ level severity Hlevel), Henable, Hevents.
  unfold log_event. rewrite Hnow. reflexivity.
Qed.

(** X11.  After [enableConsoleLogging(false)] no logger call of any
    severity does anything at all, whatever the threshold; the threshold
    itself is kept, so after [enableConsoleLogging(true)] a call passes
    exactly when its severity passes the threshold from before. *)
Theorem enableConsoleLogging_false_silences
  (severity : LogLevel.t) (message : string) (data : jsval) (w : World) :
  exists w1,
    Logger.enableConsoleLogging false w = Return tt w1
    /\ Logger.at_level severity message data w1 = Return tt w1
    /\ events w1 = events w
    /\ Logging.level (logging (config w1)) = Logging.level (logging (config w))
    /\ exists w2,
         Logger.enableConsoleLogging true w1 = Return tt w2
         /\ passes (config w2) severity
            = (indexOf Logger.levels (LogLevel.name severity)
                 >=? indexOf Logger.levels (Logging.level (logging (config w)))).
Proof.
  eexists. split; [reflexivity |].
  split.
  - rewrite at_level_run. unfold logged, passes.
    cbn [set_config config logging Logging.enableConsole].
    rewrite andb_false_r. reflexivity.
  - split; [reflexivity |]. split; [reflexivity |].
    eexists. split; [reflexivity |].
    unfold passes. cbn [set_config config logging Logging.enableConsole Logging.level].
    apply andb_true_r.
Qed.

(* ================================================================== *)
(** ** Further properties: the model manager *)

Lemma waits_emit (ms n : nat) (w : World) :
  waits ms (events (emit (Timer n) w))
  = (waits ms (events w) + (if Nat.eqb n ms then 1 else 0))%nat.
Proof.
  cbn [events emit]. rewrite waits_app. cbn [waits].
  destruct (Nat.eqb n ms); reflexivity.
Qed.

Lemma after_initialize_waits_other (ms : nat) (w : World) :
  ms <> 100%nat ->
  waits ms (events (after_initialize w)) = waits ms (events w).
Proof.
  intros Hms. unfold after_initialize. rewrite logged_waits.
  cbn [events set_managerInitialized]. rewrite logged_waits, waits_emit, logged_waits.
  destruct (Nat.eqb_spec 100 ms); [congruence | lia].
Qed.

Lemma testConnection_run (w : World) :
  exists w',
    ModelManager.testConnection w = Return true w'
    /\ managerInitialized w' = managerInitialized w
    /\ config w' = config w
    /\ waits 50 (events w') = S (waits 50 (events w))
    /\ waits 100 (events w') = waits 100 (events w).
Proof.
  unfold ModelManager.testConnection. run. eexists. split; [reflexivity |].
  rewrite logged_flag, logged_config, !logged_waits, !waits_emit, !logged_waits.
  cbn [managerInitialized config emit].
  rewrite logged_flag, logged_config.
  cbn. repeat split; lia.
Qed.

(** X12.  [testConnection()] reports success from every state, initialized
    or not: it returns true after one wait of 50 ms, without touching the
    initialized flag or the configuration, and without the 100 ms wait of
    the initialization. *)
Theorem testConnection_always_true (w : World) :
  exists w',
    ModelManager.testConnection w = Return true w'
    /\ managerInitialized w' = managerInitialized w
    /\ config w' = config w
    /\ waits 50 (events w') = S (waits 50 (events w))
    /\ waits 100 (events w') = waits 100 (events w).
Proof.
  unfold ModelManager.testConnection. run. eexists. split; [reflexivity |].
  rewrite logged_flag, logged_config, !logged_waits, !waits_emit, !logged_waits.
  cbn [managerInitialized config emit].
  rewrite logged_flag, logged_config.
  cbn. repeat split; lia.
Qed.

(** X13.  [reinitialize()] of the model manager returns from every state
    with the flag set, and always goes through the 100 ms wait once more,
    also when the manager was initialized already; it makes no connection
    test and leaves the configuration as it was. *)
Theorem reinitialize_runs_again (w : World) :
  exists w',
    ModelManager.reinitialize w = Return tt w'
    /\ managerInitialized w' = true
    /\ config w' = config w
    /\ waits 100 (events w') = S (waits 100 (events w))
    /\ waits 50 (events w') = waits 50 (events w).
Proof.
  unfold ModelManager.reinitialize. run.
  rewrite initialize_fresh by reflexivity.
  eexists. split; [reflexivity |].
  rewrite after_initialize_flag, after_initialize_config, after_initialize_waits.
  rewrite after_initialize_waits_other by lia.
  repeat split.
Qed.

(* ================================================================== *)
(** ** Further properties: the application facade *)

Lemma on_world_throw {A : Type} (m : M World A) (this : LangChainStarter.t)
      (msg : string) (w : World) :
  m (LangChainStarter.world this) = Throw msg w ->
  LangChainStarter.on_world m this =
  Throw msg {| LangChainStarter.world := w;
               LangChainStarter.initialized := LangChainStarter.initialized this |}.
Proof. intros H. unfold LangChainStarter.on_world. rewrite H. reflexivity. Qed.

(** How [initialize()] of a facade that is not initialized ends, by what
    the connection test answers. *)
Lemma initialize_with_run
  (testConnection : M World bool) (this : LangChainStarter.t)
  (w1 w2 : World) (ok : bool) :
  LangChainStarter.initialized this = false ->
  ModelManager.initialize
    (logged LogLevel.info "Initializing LangChain starter..." VUndefined
       (LangChainStarter.world this)) = Return tt w1 ->
  testConnection w1 = Return ok w2 ->
  LangChainStarter.initialize_with testConnection this =
  if ok then
    Return tt
      {| LangChainStarter.world :=
           logged LogLevel.info "LangChain starter initialized successfully" VUndefined w2;
         LangChainStarter.initialized := true |}
  else
    Throw "Failed to establish connection with models"
      {| LangChainStarter.world :=
           logged LogLevel.error "Failed to initialize LangChain starter"
             (VError "Failed to establish connection with models") w2;
         LangChainStarter.initialized := false |}.
Proof.
  intros Hflag Hinit Htest.
  unfold LangChainStarter.initialize_with.
  unfold bind at 1. unfold get at 1. rewrite Hflag.
  unfold try_catch, bind.
  rewrite (on_world_return _ this tt _ (info_run _ _ _)).
  rewrite (on_world_return _ _ tt w1) by exact Hinit.
  rewrite (on_world_return _ _ ok w2) by exact Htest.
  cbn [LangChainStarter.initialized]. rewrite Hflag.
  destruct ok; cbn [negb].
  - unfold ret at 1. unfold modify, LangChainStarter.set_initialized.
    cbn [LangChainStarter.world LangChainStarter.initialized].
    rewrite (on_world_return _ _ tt _ (info_run _ _ _)). reflexivity.
  - unfold throw at 1.
    rewrite (on_world_return _ _ tt _ (error_run _ _ _)). reflexivity.
Qed.

Lemma initialize_any (w : World) :
  exists w',
    ModelManager.initialize w = Return tt w'
    /\ managerInitialized w' = true
    /\ config w' = config w
    /\ waits 50 (events w') = waits 50 (events w)
    /\ waits 100 (events w')
       = (waits 100 (events w) + (if managerInitialized w then 0 else 1))%nat.
Proof.
  destruct (managerInitialized w) eqn:H.
  - eexists. split; [apply initialize_again, H |].
    rewrite logged_flag, logged_config, !logged_waits. repeat split; [exact H | lia].
  - eexists. split; [apply initialize_fresh, H |].
    rewrite after_initialize_flag, after_initialize_config, after_initialize_waits.
    rewrite after_initialize_waits_other by lia. repeat split. lia.
Qed.

Lemma facade_initialize_run (this : LangChainStarter.t) :
  LangChainStarter.initialized this = false ->
  exists this',
    LangChainStarter.initialize this = Return tt this'
    /\ LangChainStarter.initialized this' = true
    /\ managerInitialized (LangChainStarter.world this') = true
    /\ LangChainStarter.getCore this' = Return tt this'
    /\ config (LangChainStarter.world this') = config (LangChainStarter.world this)
    /\ waits 50 (events (LangChainStarter.world this'))
       = S (waits 50 (events (LangChainStarter.world this)))
    /\ waits 100 (events (LangChainStarter.world this'))
       = (waits 100 (events (LangChainStarter.world this))
          + (if managerInitialized (LangChainStarter.world this) then 0 else 1))%nat.
Proof.
  intros Hflag.
  destruct (initialize_any
              (logged LogLevel.info "Initializing LangChain starter..." VUndefined
                 (LangChainStarter.world this)))
    as (w1 & Hinit & Hflag1 & Hcfg1 & H50 & H100).
  destruct (testConnection_run w1)
    as (w2 & Htest & Hflag2 & Hcfg2 & H50' & H100').
  unfold LangChainStarter.initialize.
  rewrite (initialize_with_run _ this w1 w2 true Hflag Hinit Htest).
  eexists. split; [reflexivity |].
  cbn [LangChainStarter.initialized LangChainStarter.world].
  rewrite logged_flag, logged_config, !logged_waits.
  rewrite logged_flag, logged_config, !logged_waits in *.
  repeat split; congruence.
Qed.

(** X14.  [initialize()] of a facade that is not initialized returns and
    sets both flags; [getCore()] then returns; the connection test ran
    once, and the 100 ms wait of the model manager happened unless that
    manager was initialized already. *)
Theorem facade_initialize_succeeds (this : LangChainStarter.t) :
  LangChainStarter.initialized this = false ->
  exists this',
    LangChainStarter.initialize this = Return tt this'
    /\ LangChainStarter.initialized this' = true
    /\ managerInitialized (LangChainStarter.world this') = true
    /\ LangChainStarter.getCore this' = Return tt this'
    /\ config (LangChainStarter.world this') = config (LangChainStarter.world this)
    /\ waits 50 (events (LangChainStarter.world this'))
       = S (waits 50 (events (LangChainStarter.world this)))
    /\ waits 100 (events (LangChainStarter.world this'))
       = (waits 100 (events (LangChainStarter.world this))
          + (if managerInitialized (LangChainStarter.world this) then 0 else 1))%nat.
Proof.
  intros Hflag.
  destruct (initialize_any
              (logged LogLevel.info "Initializing LangChain starter..." VUndefined
                 (LangChainStarter.world this)))
    as (w1 & Hinit & Hflag1 & Hcfg1 & H50 & H100).
  destruct (testConnection_run w1)
    as (w2 & Htest & Hflag2 & Hcfg2 & H50' & H100').
  unfold LangChainStarter.initialize.
  rewrite (initialize_with_run _ this w1 w2 true Hflag Hinit Htest).
  eexists. split; [reflexivity |].
  cbn [LangChainStarter.initialized LangChainStarter.world].
  rewrite logged_flag, logged_config, !logged_waits.
  rewrite logged_flag, logged_config, !logged_waits in *.
  repeat split; congruence.
Qed.

Lemma facade_initialize_succeeds_witness :
  exists this',
    LangChainStarter.initialize (sample_starter "5") = Return tt this'
    /\ LangChainStarter.getCore this' = Return tt this'.
Proof.
  destruct (facade_initialize_succeeds (sample_starter "5") eq_refl)
    as (this' & Hrun & _ & _ & Hcore & _).
  exists this'. split; assumption.
Defined.

(** X15.  [initialize()] of a facade that is initialized already does
    nothing but [logger.warn("LangChain starter already initialized")]: it
    returns, makes no wait and no connection test, and changes no flag. *)
Theorem facade_initialize_again (this : LangChainStarter.t) :
  LangChainStarter.initialized this = true ->
  LangChainStarter.initialize this =
  Return tt
    {| LangChainStarter.world :=
         logged LogLevel.warn "LangChain starter already initialized" VUndefined
           (LangChainStarter.world this);
       LangChainStarter.initialized := true |}
  /\ forall ms : nat,
       waits ms (events (logged LogLevel.warn "LangChain starter already initialized"
                           VUndefined (LangChainStarter.world this)))
       = waits ms (events (LangChainStarter.world this)).
Proof.
  intros Hflag. split; [| intros ms; apply logged_waits].
  unfold LangChainStarter.initialize, LangChainStarter.initialize_with.
  unfold bind, get. rewrite Hflag.
  rewrite (on_world_return _ this tt _ (warn_run _ _ _)). rewrite Hflag.
  reflexivity.
Qed.

Lemma facade_initialize_again_witness :
  exists this',
    LangChainStarter.initialize
      {| LangChainStarter.world := after_initialize (sample_world "5");
         LangChainStarter.initialized := true |}
    = Return tt this'
    /\ waits 100 (events (LangChainStarter.world this')) = 1%nat.
Proof.
  destruct (facade_initialize_again
              {| LangChainStarter.world := after_initialize (sample_world "5");
                 LangChainStarter.initialized := true |} eq_refl) as [Hrun Hwaits].
  eexists. split; [exact Hrun |].
  cbn [LangChainStarter.world]. rewrite Hwaits. reflexivity.
Defined.

(** X16.  [reinitialize()] of the facade returns from every state with
    both flags set and runs the connection test again; the model manager
    is asked to initialize, not to reinitialize, so when it is initialized
    already its 100 ms wait is not repeated. *)
Theorem facade_reinitialize (this : LangChainStarter.t) :
  exists this',
    LangChainStarter.reinitialize this = Return tt this'
    /\ LangChainStarter.initialized this' = true
    /\ managerInitialized (LangChainStarter.world this') = true
    /\ waits 50 (events (LangChainStarter.world this'))
       = S (waits 50 (events (LangChainStarter.world this)))
    /\ waits 100 (events (LangChainStarter.world this'))
       = (waits 100 (events (LangChainStarter.world this))
          + (if managerInitialized (LangChainStarter.world this) then 0 else 1))%nat.
Proof.
  unfold LangChainStarter.reinitialize, bind, modify.
  destruct (facade_initialize_run (LangChainStarter.set_initialized false this) eq_refl)
    as (this' & Hrun & Hflag & Hmgr & _ & _ & H50 & H100).
  exists this'. rewrite Hrun. auto.
Qed.

Lemma simpleChat_run (message : string) (systemPrompt : option string) (w : World) :
  managerInitialized w = true ->
  exists w',
    LangChainCore.simpleChat message systemPrompt w = Return ("Echo: " +:+ message) w'
    /\ managerInitialized w' = true
    /\ config w' = config w
    /\ (forall ms : nat, waits ms (events w') = waits ms (events w)).
Proof.
  intros H. rewrite simpleChat_served by exact H. eexists. split; [reflexivity |].
  unfold served. rewrite !logged_flag, !logged_config.
  repeat split; [exact H |]. intros ms. rewrite !logged_waits. reflexivity.
Qed.

(** X17.  A connection test that fails stops the facade, not the model
    manager: after the failed [initialize()] the flag of the facade is
    unset and [getCore()] throws, yet the manager is initialized and the
    core answers (a chat is echoed); and a later [initialize()] whose
    connection test passes completes, after which [getCore()] returns,
    without repeating the 100 ms wait. *)
Theorem connection_failure_is_partial
  (testConnection : M World bool) (this : LangChainStarter.t) (w1 w2 : World)
  (message : string) :
  LangChainStarter.initialized this = false ->
  ModelManager.initialize
    (logged LogLevel.info "Initializing LangChain starter..." VUndefined
       (LangChainStarter.world this)) = Return tt w1 ->
  testConnection w1 = Return false w2 ->
  managerInitialized w2 = managerInitialized w1 ->
  exists this',
    LangChainStarter.initialize_with testConnection this
    = Throw "Failed to establish connection with models" this'
    /\ LangChainStarter.initialized this' = false
    /\ LangChainStarter.getCore this'
       = Throw "LangChain starter must be initialized before use" this'
    /\ managerInitialized (LangChainStarter.world this') = true
    /\ (exists w', LangChainCore.simpleChat message None (LangChainStarter.world this')
                   = Return ("Echo: " +:+ message) w')
    /\ exists this'',
         LangChainStarter.initialize this' = Return tt this''
         /\ LangChainStarter.initialized this'' = true
         /\ LangChainStarter.getCore this'' = Return tt this''
         /\ waits 100 (events (LangChainStarter.world this''))
            = waits 100 (events (LangChainStarter.world this')).
Proof.
  intros Hflag Hinit Htest Hkeep.
  rewrite (initialize_with_run _ this w1 w2 false Hflag Hinit Htest).
  eexists. split; [reflexivity |].
  split; [reflexivity |]. split; [reflexivity |].
  cbn [LangChainStarter.world].
  assert (Hmgr : managerInitialized
                   (logged LogLevel.error "Failed to initialize LangChain starter"
                      (VError "Failed to establish connection with models") w2) = true).
  { rewrite logged_flag, Hkeep. eapply initialize_returns_initialized, Hinit. }
  split; [exact Hmgr |]. split.
  - destruct (simpleChat_run message None _ Hmgr) as (w' & Hrun & _). eauto.
  - match goal with
    | |- exists _, LangChainStarter.initialize ?s = _ /\ _ =>
        destruct (facade_initialize_run s eq_refl)
          as (this'' & Hrun & Hflag' & _ & Hcore & _ & _ & H100)
    end.
    exists this''. split; [exact Hrun |]. split; [exact Hflag' |].
    split; [exact Hcore |].
    rewrite H100. cbn [LangChainStarter.world]. rewrite Hmgr. lia.
Qed.

Lemma connection_failure_is_partial_witness :
  exists this' this'',
    LangChainStarter.initialize_with (ret false) (sample_starter "5")
    = Throw "Failed to establish connection with models" this'
    /\ LangChainStarter.getCore this'
       = Throw "LangChain starter must be initialized before use" this'
    /\ managerInitialized (LangChainStarter.world this') = true
    /\ LangChainStarter.initialize this' = Return tt this''.
Proof.
  destruct (connection_failure_is_partial (ret false) (sample_starter "5")
              (after_initialize
                 (logged LogLevel.info "Initializing LangChain starter..." VUndefined
                    (sample_world "5")))
              (after_initialize
                 (logged LogLevel.info "Initializing LangChain starter..." VUndefined
                    (sample_world "5")))
              "hello")
    as (this' & Hrun & _ & Hcore & Hmgr & _ & this'' & Hretry & _).
  - reflexivity.
  - reflexivity.
  - reflexivity.
  - reflexivity.
  - exists this', this''. auto.
Defined.

Lemma starter_new_run (e : gmap string string) (clock : string) (slot : option ConfigManager.t) :
  LangChainStarter.new e clock slot =
  match ConfigManager.getInstance e slot with
  | Return manager slot' =>
      Return
        {| LangChainStarter.world :=
             {| config := ConfigManager.config manager; now := clock; events := [];
                draws := 0%nat; managerInitialized := false |};
           LangChainStarter.initialized := false |}
        slot'
  | Throw msg slot' => Throw msg slot'
  | Unfinished => Unfinished
  end.
Proof.
  unfold LangChainStarter.new, bind, ret.
  destruct (ConfigManager.getInstance e slot); reflexivity.
Qed.

Lemma getInstance_first (e : gmap string string) :
  ConfigManager.getInstance e None =
  if String.eqb (resolved_key e) ""
  then Throw "OPENAI_API_KEY environment variable is required" None
  else Return {| ConfigManager.config := ConfigManager.loadConfig e |}
              (Some {| ConfigManager.config := ConfigManager.loadConfig e |}).
Proof.
  unfold ConfigManager.getInstance. rewrite new_run.
  destruct (String.eqb _ _); reflexivity.
Qed.

(** X18.  [new LangChainStarter()], when no configuration instance exists
    yet, throws the validation error exactly when the resolved API key is
    empty; otherwise it returns an application with the loaded
    configuration, both flags unset and nothing logged, on which
    [getCore()] throws until [initialize()] has run. *)
Theorem starter_construction (e : gmap string string) (clock : string) :
  (resolved_key e = "" ->
   LangChainStarter.new e clock None
   = Throw "OPENAI_API_KEY environment variable is required" None)
  /\ (resolved_key e <> "" ->
      exists this slot,
        LangChainStarter.new e clock None = Return this slot
        /\ LangChainStarter.getConfig this = Return (ConfigManager.loadConfig e) this
        /\ LangChainStarter.initialized this = false
        /\ managerInitialized (LangChainStarter.world this) = false
        /\ events (LangChainStarter.world this) = []
        /\ LangChainStarter.getCore this
           = Throw "LangChain starter must be initialized before use" this).
Proof.
  rewrite starter_new_run, getInstance_first.
  destruct (String.eqb_spec (resolved_key e) "") as [Hk | Hk].
  - split; [reflexivity | intros H; contradiction].
  - split; [intros H; contradiction |].
    intros _. eexists. eexists. split; [reflexivity |]. repeat split.
Qed.

Lemma starter_construction_witness :
  exists this slot,
    LangChainStarter.new (sample_env "5") "2024-01-01T00:00:00.000Z" None
    = Return this slot
    /\ LangChainStarter.world this = sample_world "5".
Proof.
  destruct (starter_construction (sample_env "5") "2024-01-01T00:00:00.000Z")
    as [_ H].
  destruct H as (this & slot & Hrun & _).
  - vm_compute. discriminate.
  - exists this, slot. split; [exact Hrun |].
    vm_compute in Hrun. injection Hrun as <- _. reflexivity.
Defined.

(** X19.  With a key in the environment the whole start-up goes through:
    construction, then [initialize()], then [getCore()] all return; one
    100 ms wait and one connection test were made, and the configuration
    is still the one loaded. *)
Theorem starter_lifecycle (e : gmap string string) (clock : string) :
  resolved_key e <> "" ->
  exists this slot this',
    LangChainStarter.new e clock None = Return this slot
    /\ LangChainStarter.initialize this = Return tt this'
    /\ LangChainStarter.getCore this' = Return tt this'
    /\ LangChainStarter.getConfig this' = Return (ConfigManager.loadConfig e) this'
    /\ waits 100 (events (LangChainStarter.world this')) = 1%nat
    /\ waits 50 (events (LangChainStarter.world this')) = 1%nat.
Proof.
  intros Hk. rewrite starter_new_run, getInstance_first.
  destruct (String.eqb_spec (resolved_key e) "") as [H | _]; [contradiction |].
  eexists. eexists.
  match goal with
  | |- exists _, Return ?s _ = _ /\ _ =>
      destruct (facade_initialize_run s eq_refl)
        as (this' & Hrun & _ & _ & Hcore & Hcfg & H50 & H100)
  end.
  exists this'. split; [reflexivity |]. split; [exact Hrun |]. split; [exact Hcore |].
  split; [| split; [exact H100 | exact H50]].
  unfold LangChainStarter.getConfig, bind, get, ret. rewrite Hcfg. reflexivity.
Qed.

Lemma starter_lifecycle_witness :
  exists this slot this',
    LangChainStarter.new (sample_env "5") "2024-01-01T00:00:00.000Z" None
    = Return this slot
    /\ LangChainStarter.initialize this = Return tt this'
    /\ LangChainStarter.getCore this' = Return tt this'.
Proof.
  destruct (starter_lifecycle (sample_env "5") "2024-01-01T00:00:00.000Z")
    as (this & slot & this' & Hnew & Hinit & Hcore & _).
  - vm_compute. discriminate.
  - exists this, slot, this'. auto.
Defined.

(* ================================================================== *)
(** ** Further properties: the core *)

(** X21.  With the manager initialized, [simpleChat(message, systemPrompt)]
    returns "Echo: " followed by the message, for every system prompt,
    given or not: the system prompt has no effect on the call. *)
Theorem simpleChat_echoes (message : string) (systemPrompt : option string) (w : World) :
  managerInitialized w = true ->
  (exists w',
     LangChainCore.simpleChat message systemPrompt w = Return ("Echo: " +:+ message) w')
  /\ (forall other : option string,
        LangChainCore.simpleChat message other w
        = LangChainCore.simpleChat message systemPrompt w).
Proof.
  intros H. split.
  - destruct (simpleChat_run message systemPrompt w H) as (w' & Hrun & _). eauto.
  - intros other. rewrite !simpleChat_served by exact H. reflexivity.
Qed.

Lemma simpleChat_echoes_witness :
  exists w',
    LangChainCore.simpleChat "hello" (Some "ignored system prompt")
      (after_initialize (sample_world "5"))
    = Return "Echo: hello" w'.
Proof.
  destruct (simpleChat_echoes "hello" (Some "ignored system prompt")
              (after_initialize (sample_world "5")) eq_refl) as [H _].
  exact H.
Defined.

Lemma array_slice_from_start {A : Type} (l : list A) (k : number) :
  exists n : nat, (n <= length l)%nat /\ array_slice l (Int 0) k = take n l.
Proof.
  unfold array_slice. cbn [to_integer].
  rewrite (clamp_index_nonneg _ 0) by lia.
  replace (Z.to_nat (Z.min 0 (Z.of_nat (length l)))) with 0%nat by lia.
  rewrite drop_0, Nat.sub_0_r.
  exists (Nat.min (clamp_index (length l) (to_integer k)) (length l)).
  split; [lia |].
  destruct (Nat.le_gt_cases (clamp_index (length l) (to_integer k)) (length l)).
  - f_equal. lia.
  - rewrite !take_ge by lia. reflexivity.
Qed.

(** X22.  Whatever [k] is given to [search], a count, a negative number,
    NaN or nothing, the store answers with a prefix of its documents: the
    first [n] of them in their order, for some [n] that is at most their
    number, each with score 0.8.  It never returns a document it does not
    hold, never repeats or reorders one. *)
Theorem search_returns_a_prefix
  (docs : list string) (query : string) (k : option number) (w : World) :
  managerInitialized w = true ->
  exists store w' (n : nat),
    LangChainCore.createVectorStore docs w = Return store w'
    /\ (n <= length docs)%nat
    /\ VectorStore.search store query k
       = map (fun doc => {| content := doc; score := Literal "0.8" |}) (take n docs)
    /\ map content (VectorStore.search store query k) = take n docs.
Proof.
  intros Hinit.
  destruct (array_slice_from_start docs (default (Int 4) k)) as (n & Hn & Hslice).
  exists (store_of docs). eexists. exists n.
  split; [apply createVectorStore_served, Hinit |].
  split; [exact Hn |].
  cbn [store_of VectorStore.search]. unfold LangChainCore.search.
  rewrite Hslice. split; [reflexivity |].
  rewrite map_map. cbn [content]. apply map_id.
Qed.

Lemma search_returns_a_prefix_witness :
  exists store w',
    LangChainCore.createVectorStore ["a"; "b"; "c"] (after_initialize (sample_world "5"))
    = Return store w'
    /\ map content (VectorStore.search store "q" (Some (Int (-2)))) = ["a"].
Proof.
  destruct (search_returns_a_prefix ["a"; "b"; "c"] "q" (Some (Int (-2)))
              (after_initialize (sample_world "5")) eq_refl)
    as (store & w' & n & Hrun & _ & Hsearch & _).
  exists store, w'. split; [exact Hrun |].
  vm_compute in Hrun. injection Hrun as <- _. reflexivity.
Defined.

Lemma similaritySearch_run
  (query : string) (documents : list string) (k : option number) (w : World) :
  managerInitialized w = true ->
  LangChainCore.similaritySearch query documents k w =
  Return (LangChainCore.search documents query (Some (default (Int 4) k)))
    (logged LogLevel.info "Similarity search completed"
       (VObject [("resultCount",
                  Int (Z.of_nat (length (LangChainCore.search documents query
                                           (Some (default (Int 4) k))))))])
       (served "Creating vector store..." "Vector store created successfully"
          (VObject [("docCount", Int (Z.of_nat (length documents)))])
          (logged LogLevel.info "Performing similarity search..." VUndefined w))).
Proof.
  intros H. unfold LangChainCore.similaritySearch. run.
  rewrite createVectorStore_served by (rewrite logged_flag; exact H).
  run. reflexivity.
Qed.

(** X23.  [similaritySearch(query, docs, k)] gives what
    [createVectorStore(docs)] followed by [search(query, k)] gives, for
    every [k], also when it is left out (four results at most then). *)
Theorem similaritySearch_agrees_with_store
  (query : string) (docs : list string) (k : option number) (w : World) :
  managerInitialized w = true ->
  exists store w1 w2,
    LangChainCore.createVectorStore docs w = Return store w1
    /\ LangChainCore.similaritySearch query docs k w
       = Return (VectorStore.search store query k) w2
    /\ (k = None -> (length (VectorStore.search store query k) <= 4)%nat).
Proof.
  intros Hinit. exists (store_of docs). eexists. eexists.
  split; [apply createVectorStore_served, Hinit |].
  split.
  - rewrite similaritySearch_run by exact Hinit.
    cbn [store_of VectorStore.search].
    destruct k; reflexivity.
  - intros ->. cbn [store_of VectorStore.search].
    rewrite search_default, length_map, length_take. lia.
Qed.

Lemma similaritySearch_agrees_with_store_witness :
  exists w',
    LangChainCore.similaritySearch "vector database" ["a"; "b"; "c"] (Some (Int 2))
      (after_initialize (sample_world "5"))
    = Return [hit "a"; hit "b"] w'.
Proof.
  destruct (similaritySearch_agrees_with_store "vector database" ["a"; "b"; "c"]
              (Some (Int 2)) (after_initialize (sample_world "5")) eq_refl)
    as (store & w1 & w2 & Hstore & Hrun & _).
  exists w2. rewrite Hrun. f_equal.
  vm_compute in Hstore. injection Hstore as <- _. reflexivity.
Defined.

Lemma set_draws_twice (a b : nat) (w : World) :
  set_draws a (set_draws b w) = set_draws a w.
Proof. reflexivity. Qed.

Lemma random_vector_draws (n : nat) (w : World) :
  LangChainCore.random_vector n w
  = Return (map Random (seq (draws w) n))
      (match n with O => w | S _ => set_draws (draws w + n) w end).
Proof.
  revert w. induction n as [| n IH]; intros w; [reflexivity |].
  cbn [LangChainCore.random_vector]. unfold LangChainCore.random. run.
  rewrite IH. cbn [draws set_draws seq map].
  destruct n as [| n].
  - replace (draws w + 1)%nat with (S (draws w)) by lia. reflexivity.
  - rewrite set_draws_twice.
    replace (S (draws w) + S n)%nat with (draws w + S (S n))%nat by lia.
    reflexivity.
Qed.

Lemma getEmbeddings_run (text : string) (w : World) :
  managerInitialized w = true ->
  LangChainCore.getEmbeddings text w
  = Return (map Random (seq (draws w) 1536))
      (logged LogLevel.info "Embeddings generated successfully" VUndefined
         (set_draws (draws w + 1536)
            (logged LogLevel.info "Getting embeddings for text..." VUndefined w))).
Proof.
  intros H. unfold LangChainCore.getEmbeddings. run. rewrite H. run.
  rewrite random_vector_draws. run. reflexivity.
Qed.

(** X24.  With the manager initialized, [getEmbeddings(text)] returns 1536
    values freshly drawn from [Math.random()], the same draws whatever the
    text; a second call draws again, so no value of its vector is one of
    the first vector: the embedding of a text is not reproducible. *)
Theorem getEmbeddings_draws_fresh_values (text text' : string) (w : World) :
  managerInitialized w = true ->
  exists xs w1 ys w2,
    LangChainCore.getEmbeddings text w = Return xs w1
    /\ LangChainCore.getEmbeddings text' w = Return xs w1
    /\ LangChainCore.getEmbeddings text w1 = Return ys w2
    /\ length xs = 1536%nat
    /\ length ys = 1536%nat
    /\ draws w2 = (draws w + 3072)%nat
    /\ forall x : float, In x xs -> ~ In x ys.
Proof.
  intros Hinit. eexists. eexists. eexists. eexists.
  split; [apply getEmbeddings_run, Hinit |].
  split; [apply getEmbeddings_run, Hinit |].
  split.
  { apply getEmbeddings_run. rewrite logged_flag. cbn [managerInitialized set_draws].
    rewrite logged_flag. exact Hinit. }
  rewrite !length_map, !length_seq.
  split; [reflexivity |]. split; [reflexivity |].
  repeat (rewrite logged_draws; cbn [draws set_draws]).
  split; [lia |].
  intros x Hx Hy.
  apply in_map_iff in Hx as (i & <- & Hi). apply in_map_iff in Hy as (j & Hij & Hj).
  injection Hij as ->. apply in_seq in Hi, Hj. lia.
Qed.

Lemma getEmbeddings_draws_fresh_values_witness :
  exists xs w1,
    LangChainCore.getEmbeddings "Hello, world!" (after_initialize (sample_world "5"))
    = Return xs w1
    /\ length xs = 1536%nat.
Proof.
  destruct (getEmbeddings_draws_fresh_values "Hello, world!" "other"
              (after_initialize (sample_world "5")) eq_refl)
    as (xs & w1 & _ & _ & Hrun & _ & _ & Hlen & _).
  exists xs, w1. split; assumption.
Defined.

Lemma same_settings_refl (w : World) : same_settings w w.
Proof. repeat split. Qed.

Lemma same_settings_logged (l : LogLevel.t) (message : string) (data : jsval) (w0 w : World) :
  same_settings w0 w -> same_settings w0 (logged l message data w).
Proof.
  intros (Hc & Hf & Hn & Hw). unfold same_settings.
  rewrite logged_config, logged_flag, logged_now.
  repeat split; try assumption.
  intros ms. rewrite logged_waits. apply Hw.
Qed.

Lemma same_settings_draws (n : nat) (w0 w : World) :
  same_settings w0 w -> same_settings w0 (set_draws n w).
Proof. intros H. exact H. Qed.

Create HintDb settings.
#[local] Hint Resolve same_settings_refl same_settings_logged same_settings_draws : settings.

(** X25.  None of the ten guarded calls changes the configuration, the
    initialized flag or the clock, and none waits on a timer: whether the
    call returns or throws, the world it leaves differs from the one it
    found in the lines logged and the random values drawn at most. *)
Theorem calls_keep_settings (fuel : nat) (c : call) (w : World) :
  match invoke fuel c w with
  | Return _ w' => same_settings w w'
  | Throw _ w' => same_settings w w'
  | Unfinished => True
  end.
Proof.
  destruct (managerInitialized w) eqn:Hflag.
  - destruct c; cbn [invoke answer].
    + destruct (accessor_served w Hflag) as (-> & _ & _). auto with settings.
    + destruct (accessor_served w Hflag) as (_ & -> & _). auto with settings.
    + destruct (accessor_served w Hflag) as (_ & _ & ->). auto with settings.
    + rewrite simpleChat_served by exact Hflag. unfold served. auto with settings.
    + destruct (createPromptChain_served template w Hflag) as (chain & -> & _).
      unfold served. auto with settings.
    + rewrite createVectorStore_served by exact Hflag. unfold served. auto with settings.
    + rewrite createRAGChain_served by exact Hflag. unfold served. auto with settings.
    + rewrite similaritySearch_run by exact Hflag. unfold served. auto with settings.
    + rewrite getEmbeddings_run by exact Hflag. auto with settings.
    + rewrite splitText_served by exact Hflag.
      destruct (LangChainCore.chunk_loop _ _ _ _ _) as [[message | chunks] |];
        [| | exact I]; unfold served; auto with settings.
  - destruct c; cbn [invoke answer].
    + destruct (accessor_refused w Hflag) as (-> & _ & _). auto with settings.
    + destruct (accessor_refused w Hflag) as (_ & -> & _). auto with settings.
    + destruct (accessor_refused w Hflag) as (_ & _ & ->). auto with settings.
    + rewrite simpleChat_refused by exact Hflag. unfold refused. auto with settings.
    + rewrite createPromptChain_refused by exact Hflag. unfold refused. auto with settings.
    + rewrite createVectorStore_refused by exact Hflag. unfold refused. auto with settings.
    + rewrite createRAGChain_refused by exact Hflag. unfold refused. auto 6 with settings.
    + rewrite similaritySearch_refused by exact Hflag. unfold refused. auto 6 with settings.
    + rewrite getEmbeddings_refused by exact Hflag. unfold refused. auto with settings.
    + rewrite splitText_refused by exact Hflag. unfold refused. auto with settings.
Qed.

Lemma error_reports_app (l1 l2 : list event) :
  error_reports (l1 ++ l2) = (error_reports l1 + error_reports l2)%nat.
Proof.
  induction l1 as [| e l1 IH]; [reflexivity |].
  destruct e as [line [[| | | | | msg |] |] | ms]; cbn [app error_reports];
    rewrite IH; reflexivity.
Qed.

(** A line that is not about an error adds no error report. *)
Lemma error_reports_plain (l : LogLevel.t) (message : string) (w : World) :
  error_reports (events (logged l message VUndefined w)) = error_reports (events w).
Proof.
  rewrite logged_events, error_reports_app.
  destruct (passes _ _); cbn; lia.
Qed.

(** The line of a [catch] block adds one, when errors pass the filter. *)
Lemma error_reports_caught (message cause : string) (w : World) :
  passes (config w) LogLevel.error = true ->
  error_reports (events (logged LogLevel.error message (VError cause) w))
  = S (error_reports (events w)).
Proof.
  intros H. rewrite logged_events, error_reports_app, H. cbn. lia.
Qed.

(** X26.  Every layer that the precondition error passes through reports
    it once before throwing it on.  With errors passing the logger's
    filter, a refused [createRAGChain] or [similaritySearch] therefore
    leaves two error lines on the console (one from [createVectorStore],
    one of its own), the other five operations of the core leave one, and
    the three accessors of the model manager leave none. *)
Theorem precondition_error_is_reported_by_each_layer (fuel : nat) (c : call) (w : World) :
  managerInitialized w = false ->
  passes (config w) LogLevel.error = true ->
  exists w',
    invoke fuel c w = Throw "ModelManager must be initialized before use" w'
    /\ error_reports (events w') = (error_reports (events w) + catch_blocks c)%nat.
Proof.
  intros Hflag Hpass.
  destruct c; cbn [invoke answer catch_blocks]; eexists;
    (split;
     [ first
         [ apply (proj1 (accessor_refused w Hflag))
         | apply (proj1 (proj2 (accessor_refused w Hflag)))
         | apply (proj2 (proj2 (accessor_refused w Hflag)))
         | apply simpleChat_refused, Hflag
         | apply createPromptChain_refused, Hflag
         | apply createVectorStore_refused, Hflag
         | apply createRAGChain_refused, Hflag
         | apply similaritySearch_refused, Hflag
         | apply getEmbeddings_refused, Hflag
         | apply splitText_refused, Hflag ]
     | unfold refused;
       repeat first
         [ rewrite error_reports_caught
             by (rewrite ?logged_config; exact Hpass)
         | rewrite error_reports_plain ];
       lia ]).
Qed.

Lemma precondition_error_is_reported_by_each_layer_witness :
  exists w',
    invoke 0 (CreateRAGChain ["a"; "b"]) (sample_world "5")
    = Throw "ModelManager must be initialized before use" w'
    /\ error_reports (events w') = 2%nat.
Proof.
  destruct (precondition_error_is_reported_by_each_layer 0
              (CreateRAGChain ["a"; "b"]) (sample_world "5"))
    as (w' & Hrun & Hcount).
  - reflexivity.
  - reflexivity.
  - exists w'. split; [exact Hrun | exact Hcount].
Defined.

(** X27.  A text that is not empty and no longer than the chunk size comes
    back whole, as the only chunk. *)
Theorem splitText_short_text (text : string) (c : Z) (fuel : nat) (w : World) :
  managerInitialized w = true ->
  Embeddings.chunkSize (embeddings (config w)) = Int c ->
  text <> "" ->
  Z.of_nat (String.length text) <= c ->
  (String.length text < fuel)%nat ->
  exists w', LangChainCore.splitText fuel text w = Return [text] w'.
Proof.
  intros Hinit Hsize Htext Hlen Hfuel.
  assert (Hpos : 1 <= Z.of_nat (String.length text)).
  { destruct text; [contradiction | cbn [String.length]; lia]. }
  assert (Hc : 1 <= c) by lia.
  assert (Hroom : Z.of_nat (String.length text) <= max_array_length * c).
  { pose proof max_array_length_positive. nia. }
  destruct (chunk_loop_positive text c Hc fuel Hroom Hfuel) as (n & Hrun & Hup & Hlow).
  assert (n = 1%nat) as -> by nia.
  rewrite splitText_served, Hsize, Hrun by exact Hinit.
  cbn [seq map]. unfold chunk_at. cbn [Nat.mul].
  rewrite substring_whole by lia. eauto.
Qed.

Lemma splitText_short_text_witness :
  exists w',
    LangChainCore.splitText 4 "abc" (after_initialize (sample_world "5"))
    = Return ["abc"] w'.
Proof.
  apply (splitText_short_text "abc" 5 4 (after_initialize (sample_world "5")));
    try reflexivity; try discriminate; cbn; lia.
Defined.

(** X28.  Once the manager is initialized, each of its three accessors
    returns the null placeholder and does nothing besides one call of
    [logger.debug] with its own line: the line is appended to the console
    when debug messages pass the filter, and otherwise the world is left
    exactly as it was. *)
Theorem accessors_return_null (w : World) :
  managerInitialized w = true ->
  exists w1 w2 w3,
    (ModelManager.getChatModel w = Return VNull w1
     /\ Logger.debug "Getting chat model instance" VUndefined w = Return tt w1)
    /\ (ModelManager.getEmbeddings w = Return VNull w2
        /\ Logger.debug "Getting embeddings instance" VUndefined w = Return tt w2)
    /\ (ModelManager.getTextSplitter w = Return VNull w3
        /\ Logger.debug "Getting text splitter instance" VUndefined w = Return tt w3)
    /\ (passes (config w) LogLevel.debug = true ->
        events w1 = events w
                    ++ [ConsoleLog ("[" +:+ now w +:+ "] [DEBUG] Getting chat model instance")
                          None]
        /\ events w2 = events w
                       ++ [ConsoleLog ("[" +:+ now w +:+ "] [DEBUG] Getting embeddings instance")
                             None]
        /\ events w3 = events w
                       ++ [ConsoleLog
                             ("[" +:+ now w +:+ "] [DEBUG] Getting text splitter instance")
                             None])
    /\ (passes (config w) LogLevel.debug = false -> w1 = w /\ w2 = w /\ w3 = w).
Proof.
  intros Hinit.
  destruct (accessor_served w Hinit) as (H1 & H2 & H3).
  eexists. eexists. eexists.
  split; [split; [exact H1 | apply debug_run] |].
  split; [split; [exact H2 | apply debug_run] |].
  split; [split; [exact H3 | apply debug_run] |].
  split.
  - intros Hpass. rewrite !logged_events, Hpass. repeat split.
  - intros Hpass. unfold logged. rewrite Hpass. repeat split.
Qed.

Lemma accessors_return_null_witness :
  exists w1,
    ModelManager.getChatModel (after_initialize verbose_world) = Return VNull w1
    /\ ModelManager.getTextSplitter (after_initialize (sample_world "5"))
       = Return VNull (after_initialize (sample_world "5")).
Proof.
  destruct (accessors_return_null (after_initialize verbose_world) eq_refl)
    as (w1 & _ & _ & (H1 & _) & _).
  destruct (accessors_return_null (after_initialize (sample_world "5")) eq_refl)
    as (v1 & v2 & v3 & _ & _ & (H3 & _) & _ & Hquiet).
  exists w1. split; [exact H1 |].
  destruct Hquiet as (_ & _ & Hv3); [reflexivity |].
  rewrite H3, Hv3. reflexivity.
Defined.

(** X29.  The threshold cannot silence an error: with any of the four
    levels configured, a call of [logger.error] appends its line whenever
    the console is enabled; and a call of [logger.debug] appends its line
    under the threshold debug only. *)
Theorem threshold_never_filters_errors
  (threshold : LogLevel.t) (message : string) (data : jsval) (w : World) :
  Logging.level (logging (config w)) = LogLevel.name threshold ->
  Logging.enableConsole (logging (config w)) = true ->
  (exists w',
     Logger.error message data w = Return tt w'
     /\ events w' = events w ++ [log_event w LogLevel.error message data])
  /\ (threshold <> LogLevel.debug ->
      Logger.debug message data w = Return tt w).
Proof.
  intros Hlevel Henable. split.
  - eexists. split; [apply error_run |].
    rewrite logged_events, (passes_rank _ threshold LogLevel.error Hlevel), Henable.
    destruct threshold; reflexivity.
  - intros Hne. rewrite debug_run. unfold logged.
    rewrite (passes_rank _ threshold LogLevel.debug Hlevel).
    destruct threshold; [contradiction | | |]; reflexivity.
Qed.

Lemma threshold_never_filters_errors_witness :
  exists w',
    Logger.error "disk failure" (VError "EIO") (sample_world "5") = Return tt w'
    /\ events w' =
       [ConsoleLog "[2024-01-01T00:00:00.000Z] [ERROR] disk failure" (Some (VError "EIO"))].
Proof.
  destruct (threshold_never_filters_errors LogLevel.info "disk failure" (VError "EIO")
              (sample_world "5")) as [(w' & Hrun & Hevents) _].
  - reflexivity.
  - reflexivity.
  - exists w'. split; [exact Hrun | exact Hevents].
Defined.

(* ================================================================== *)
(** ** Further properties: several applications *)

(** The singleton in a process: built on the first call when the key is
    there, returned as it is afterwards. *)
Lemma process_getConfig_run (e : gmap string string) (p : Process.t) :
  Process.getConfig e p =
  match Process.instance p with
  | Some c => Return c p
  | None =>
      let loaded := ConfigManager.loadConfig e in
      let c := {| Process.openaiSection := openai loaded;
                  Process.embeddingsSection := embeddings loaded;
                  Process.loggingAddress := Process.next p |} in
      let p' heap' inst :=
        {| Process.heap := heap';
           Process.next := S (Process.next p);
           Process.instance := inst;
           Process.clock := Process.clock p;
           Process.console := Process.console p;
           Process.random := Process.random p |} in
      let heap' := fun a => if Nat.eqb a (Process.next p)
                            then logging loaded else Process.heap p a in
      if ConfigManager.key_absent loaded
      then Throw "OPENAI_API_KEY environment variable is required"
             (p' heap' None)
      else Return c (p' heap' (Some c))
  end.
Proof.
  unfold Process.getConfig, bind, get.
  destruct (Process.instance p) as [c |] eqn:Hinst; [reflexivity |].
  unfold Process.allocate. cbv zeta. rewrite Hinst.
  destruct (ConfigManager.key_absent _); reflexivity.
Qed.


Lemma process_new_run (e : gmap string string) (p : Process.t) :
  Process.new e p =
  match Process.getConfig e p with
  | Return c p' =>
      Return {| Process.config_of := c; Process.managerReady := false;
                Process.ready := false |} p'
  | Throw message p' => Throw message p'
  | Unfinished => Unfinished
  end.
Proof. reflexivity. Qed.

(** One application seen alone is the application of [LangChainStarter]. *)
Lemma process_new_view (e : gmap string string) (p : Process.t) :
  Process.instance p = None ->
  Process.console p = [] ->
  Process.random p = 0%nat ->
  match LangChainStarter.new e (Process.clock p) None with
  | Return this _ =>
      exists app p', Process.new e p = Return app p' /\ Process.view p' app = this
  | Throw message _ => exists p', Process.new e p = Throw message p'
  | Unfinished => False
  end.
Proof.
  intros Hinst Hconsole Hrandom.
  rewrite starter_new_run, getInstance_first, process_new_run, process_getConfig_run, Hinst.
  cbv zeta. rewrite loadConfig_key_absent.
  destruct (String.eqb (resolved_key e) "").
  - eexists. reflexivity.
  - eexists. eexists. split; [reflexivity |].
    unfold Process.view, Process.read.
    cbn [Process.config_of Process.managerReady Process.ready Process.heap
         Process.loggingAddress Process.openaiSection Process.embeddingsSection
         Process.clock Process.console Process.random].
    rewrite Nat.eqb_refl, Hconsole, Hrandom.
    destruct (ConfigManager.loadConfig e). reflexivity.
Qed.









